(** * Mom_Automation: the daily-report workflow of [main.py]

    A shallow embedding of the FastAPI handlers of [main.py] and the
    properties of the report lifecycle: submission, user management,
    action-item generation and caching, document export, admin seeding
    and login.

    Conventions of the embedding.
    - A Python [str] is a list of Unicode code points ([N]).  [lit]
      turns an ASCII literal of this file into such a list.
    - A MongoDB collection is the list of its documents in natural
      (insertion) order; the [_id] field, which no handler below reads,
      is left out.
    - A handler is a computation in [M]: it transforms the [World] (the
      four collections, the log of prompts handed to the language model and
      the files written) and either returns or raises.
    - Storage operations do not fail; the language model, the password
      primitives, python-docx's check of a text and the file system
      are parameters of the handlers.
    - [logger] calls have no effect on any of this and are dropped. *)

From Stdlib Require Import List String Ascii NArith ZArith Bool Arith Lia.
From Stdlib Require DecimalString.
Import ListNotations.

Set Implicit Arguments.

(* ================================================================== *)
(** * Python strings *)
(* ================================================================== *)

Definition str := list N.

Definition lit (s : string) : str :=
  map N_of_ascii (list_ascii_of_string s).

Module Py.

(** Equality of strings, code point by code point. *)
Fixpoint eqb (a b : str) : bool :=
  match a, b with
  | [], [] => true
  | x :: a', y :: b' => N.eqb x y && eqb a' b'
  | _, _ => false
  end.

(** Truth value of a string: [bool(s)]. *)
Definition truthy (s : str) : bool :=
  match s with [] => false | _ :: _ => true end.

(** [a or b] on strings. *)
Definition or_ (a b : str) : str := if truthy a then a else b.

(** The code points [str.strip()] and [str.split()] treat as white
    space (CPython's [_PyUnicode_IsWhitespace]). *)
Definition isspace (c : N) : bool :=
  (((9 <=? c) && (c <=? 13)) || ((28 <=? c) && (c <=? 32))
   || (c =? 133) || (c =? 160) || (c =? 5760)
   || ((8192 <=? c) && (c <=? 8202))
   || (c =? 8232) || (c =? 8233) || (c =? 8239) || (c =? 8287)
   || (c =? 12288))%N.

Fixpoint lstrip (s : str) : str :=
  match s with
  | [] => []
  | c :: r => if isspace c then lstrip r else s
  end.

Definition rstrip (s : str) : str := rev (lstrip (rev s)).

(** [s.strip()] *)
Definition strip (s : str) : str := rstrip (lstrip s).

(** [s.split()]: the maximal runs of non-white-space code points, in
    order.  [cur] is the run being read, reversed. *)
Fixpoint split_from (cur : str) (s : str) : list str :=
  match s with
  | [] => match cur with [] => [] | _ :: _ => [rev cur] end
  | c :: r =>
      if isspace c
      then match cur with
           | [] => split_from [] r
           | _ :: _ => rev cur :: split_from [] r
           end
      else split_from (c :: cur) r
  end.

Definition split (s : str) : list str := split_from [] s.

(** [str(i)] for a non-negative integer. *)
Definition str_of_int (i : nat) : str :=
  lit (DecimalString.NilEmpty.string_of_uint (Nat.to_uint i)).

End Py.

(* ================================================================== *)
(** * Documents of the four collections (the Pydantic models) *)
(* ================================================================== *)

Record Report := mkReport {
  report_date : str;
  report_name : str;
  report_yesterday : str;
  report_today : str;
  report_blockers : str }.

Record User := mkUser { user_name : str }.

Record Admin := mkAdmin { admin_email : str; admin_password : str }.

Record ActionItems := mkActionItems { ai_date : str; ai_items : str }.

(* ================================================================== *)
(** * Collections (Motor) *)
(* ================================================================== *)

Module Coll.
Section Ops.
Variable A : Type.

(** [find_one(q)]: the first matching document, or [None]. *)
Definition find_one (q : A -> bool) (c : list A) : option A :=
  List.find q c.

(** [find(q).to_list(None)] *)
Definition find (q : A -> bool) (c : list A) : list A :=
  List.filter q c.

Definition insert_one (d : A) (c : list A) : list A := c ++ [d].

(** [delete_one(q)] removes the first matching document only. *)
Fixpoint delete_one (q : A -> bool) (c : list A) : list A :=
  match c with
  | [] => []
  | d :: r => if q d then r else d :: delete_one q r
  end.

Definition delete_many (q : A -> bool) (c : list A) : list A :=
  List.filter (fun d => negb (q d)) c.
End Ops.
End Coll.

(* ================================================================== *)
(** * python-docx documents *)
(* ================================================================== *)

Inductive Block :=
| Heading (text : str) (level : nat)
| Table (style : str) (cells : list (list str))
| Paragraph (runs : list str).

Definition Document := list Block.

Module Docx.

(** [doc.add_table(rows, cols)]: a grid of empty cells. *)
Definition new_table (rows cols : nat) : list (list str) :=
  repeat (repeat ([] : str) cols) rows.

Fixpoint set_nth {A : Type} (l : list A) (i : nat) (v : A)
  : option (list A) :=
  match l, i with
  | [], _ => None
  | _ :: r, O => Some (v :: r)
  | x :: r, S i' =>
      match set_nth r i' v with
      | Some r' => Some (x :: r')
      | None => None
      end
  end.

(** [table.cell(i, j).text = v]; [None] stands for [IndexError]. *)
Definition set_cell (t : list (list str)) (i j : nat) (v : str)
  : option (list (list str)) :=
  match nth_error t i with
  | None => None
  | Some row =>
      match set_nth row j v with
      | None => None
      | Some row' => set_nth t i row'
      end
  end.

End Docx.

(* ================================================================== *)
(** * Exceptions, the world and the handler monad *)
(* ================================================================== *)

Record HTTPException := mkHTTPException {
  status_code : Z;
  detail : str;
  headers : list (str * str) }.

(** What a handler can raise: an [HTTPException], or any other Python
    exception (both are instances of [Exception]). *)
Inductive exn :=
| HTTPExc (e : HTTPException)
| OtherExc.

Inductive result (A : Type) :=
| Ok (a : A)
| Raise (e : exn).
Arguments Ok {A} a.
Arguments Raise {A} e.

Record World := mkWorld {
  users_collection : list User;
  reports_collection : list Report;
  action_items_collection : list ActionItems;
  admins_collection : list Admin;
  (** prompts handed to [llm.ainvoke] so far, oldest first *)
  llm_calls : list str;
  (** files [doc.save] has written, newest last *)
  saved_files : list (str * Document) }.

Definition set_users (f : list User -> list User) (w : World) : World :=
  mkWorld (f (users_collection w)) (reports_collection w)
          (action_items_collection w) (admins_collection w)
          (llm_calls w) (saved_files w).

Definition set_reports (f : list Report -> list Report) (w : World) : World :=
  mkWorld (users_collection w) (f (reports_collection w))
          (action_items_collection w) (admins_collection w)
          (llm_calls w) (saved_files w).

Definition set_action_items (f : list ActionItems -> list ActionItems)
  (w : World) : World :=
  mkWorld (users_collection w) (reports_collection w)
          (f (action_items_collection w)) (admins_collection w)
          (llm_calls w) (saved_files w).

Definition set_admins (f : list Admin -> list Admin) (w : World) : World :=
  mkWorld (users_collection w) (reports_collection w)
          (action_items_collection w) (f (admins_collection w))
          (llm_calls w) (saved_files w).

Definition set_llm_calls (f : list str -> list str) (w : World) : World :=
  mkWorld (users_collection w) (reports_collection w)
          (action_items_collection w) (admins_collection w)
          (f (llm_calls w)) (saved_files w).

Definition set_saved_files
  (f : list (str * Document) -> list (str * Document)) (w : World) : World :=
  mkWorld (users_collection w) (reports_collection w)
          (action_items_collection w) (admins_collection w)
          (llm_calls w) (f (saved_files w)).

Definition M (A : Type) : Type := World -> result A * World.

Definition ret {A : Type} (a : A) : M A := fun w => (Ok a, w).

Definition bind {A B : Type} (c : M A) (k : A -> M B) : M B :=
  fun w =>
    match c w with
    | (Ok a, w') => k a w'
    | (Raise e, w') => (Raise e, w')
    end.

Definition raise {A : Type} (e : exn) : M A := fun w => (Raise e, w).

(** [try: body except Exception as e: handler] *)
Definition try_except {A : Type} (body : M A) (handler : exn -> M A) : M A :=
  fun w =>
    match body w with
    | (Ok a, w') => (Ok a, w')
    | (Raise e, w') => handler e w'
    end.

Definition gets {A : Type} (f : World -> A) : M A := fun w => (Ok (f w), w).

Definition modify (f : World -> World) : M unit := fun w => (Ok tt, f w).

(** [if c: raise e] *)
Definition raise_if (c : bool) (e : exn) : M unit :=
  if c then raise e else ret tt.

Declare Scope handler_scope.
Delimit Scope handler_scope with handler.
Notation "x <- c ;; k" := (bind c (fun x => k))
  (at level 61, c at next level, right associativity) : handler_scope.
Notation "c ;; k" := (bind c (fun _ => k))
  (at level 61, right associativity) : handler_scope.
Local Open Scope handler_scope.

(** Runs the monadic steps of a handler. *)
Ltac run :=
  unfold bind, gets, modify, raise_if, raise, ret, try_except; simpl.

Definition http (code : Z) (msg : string) : exn :=
  HTTPExc (mkHTTPException code (lit msg) []).

Definition is_some {A : Type} (o : option A) : bool :=
  match o with Some _ => true | None => false end.

Definition is_nil {A : Type} (l : list A) : bool :=
  match l with [] => true | _ :: _ => false end.

Definition nl : str := [10%N].
Definition dquote : str := [34%N].
Definition bullet : str := [8226%N].

Fixpoint enumerate {A : Type} (start : nat) (l : list A) : list (nat * A) :=
  match l with
  | [] => []
  | x :: r => (start, x) :: enumerate (S start) r
  end.

Record Request := mkRequest { cookies : list (str * str) }.

(** [request.cookies.get(key)] *)
Fixpoint cookies_get (key : str) (cs : list (str * str)) : option str :=
  match cs with
  | [] => None
  | (k, v) :: r => if Py.eqb k key then Some v else cookies_get key r
  end.

Record FileResponse := mkFileResponse {
  fr_path : str;
  fr_filename : str;
  fr_media_type : str }.

Record ReportRow := mkReportRow {
  row_sno : nat;
  row_name : str;
  row_yesterday : str;
  row_today : str;
  row_blockers : str }.

(* ================================================================== *)
(** * The handlers of [main.py] *)
(* ================================================================== *)

Section Handlers.

(** [pwd_context.verify(plain, hashed)]; [None] when it raises. *)
Variable pwd_verify : str -> str -> option bool.
(** [pwd_context.hash(plain)] *)
Variable pwd_hash : str -> str.
(** [(await llm.ainvoke(prompt)).content] of the [n]-th invocation of
    the language model ([n] counts from 0); [None] when the call, or
    reading the content as text, raises. *)
Variable llm_ainvoke : nat -> str -> option str.
(** Whether [ChatGoogleGenerativeAI(...)] builds a client, after [n]
    prompts have been handed over; [false] when it raises. *)
Variable llm_client_ok : nat -> bool.
(** Whether python-docx takes a text (a heading, the text of a cell,
    a run); [false] when it raises [ValueError], as it does for a text
    with a control character. *)
Variable docx_accepts : str -> bool.
(** Whether [doc.save(path)] writes the file, after [n] files have
    been written; [false] when it raises, as it does for a path that
    names no file. *)
Variable doc_save_ok : nat -> str -> bool.

(** [llm = ChatGoogleGenerativeAI(...)]: no prompt is handed over. *)
Definition make_client : M unit :=
  fun w =>
    if llm_client_ok (List.length (llm_calls w))
    then (Ok tt, w)
    else (Raise OtherExc, w).

(** [await llm.ainvoke(prompt)]: the prompt is handed over, then the
    language model answers or the call raises. *)
Definition ainvoke (prompt : str) : M str :=
  fun w =>
    let w' := set_llm_calls (fun l => l ++ [prompt]) w in
    match llm_ainvoke (List.length (llm_calls w)) prompt with
    | Some content => (Ok content, w')
    | None => (Raise OtherExc, w')
    end.

(** ** Authentication *)

Definition verify_password (plain_password hashed_password : str) : bool :=
  match pwd_verify plain_password hashed_password with
  | Some b => b
  | None => false
  end.

Definition authenticate_admin (email password : str) : M bool :=
  admin <- gets (fun w =>
    Coll.find_one (fun a => Py.eqb (admin_email a) email)
                  (admins_collection w)) ;;
  match admin with
  | None => ret false
  | Some admin =>
      if negb (verify_password password (admin_password admin))
      then ret false
      else ret true
  end.

Definition auth_headers : list (str * str) :=
  [(lit "WWW-Authenticate", lit "Bearer"); (lit "Location", lit "/login")].

Definition get_current_admin (request : Request) : M str :=
  match cookies_get (lit "access_token") (cookies request) with
  | None =>
      raise (HTTPExc (mkHTTPException 401 (lit "Not authenticated")
                                      auth_headers))
  | Some token =>
      raise_if (negb (Py.truthy token))
        (HTTPExc (mkHTTPException 401 (lit "Not authenticated")
                                  auth_headers)) ;;
      admin <- gets (fun w =>
        Coll.find_one (fun a => Py.eqb (admin_email a) token)
                      (admins_collection w)) ;;
      raise_if (negb (is_some admin))
        (HTTPExc (mkHTTPException 401
                    (lit "Invalid authentication credentials")
                    auth_headers)) ;;
      ret token
  end.

(** A route declared with [token: str = Depends(get_current_admin)]:
    the dependency runs first and its result is passed on. *)
Definition Depends {A : Type} (request : Request) (handler : str -> M A)
  : M A :=
  token <- get_current_admin request ;;
  handler token.

(** [POST /login]; the result is the [access_token] of the response,
    which is also the value of the cookie it sets. *)
Definition login (email password : str) : M str :=
  ok <- authenticate_admin email password ;;
  if ok
  then let access_token := email in ret access_token
  else raise (http 401 "Invalid email or password").

(** ** Reports *)

Definition count_words (text : str) : nat :=
  List.length (Py.split (Py.strip text)).

Definition save_report (date name yesterday today blockers : str) : M str :=
  raise_if ((10 <? count_words yesterday) || (10 <? count_words today))
    (http 400 "Each field must not exceed 10 words") ;;
  raise_if (negb (Py.truthy (Py.strip yesterday))
            || negb (Py.truthy (Py.strip today)))
    (http 400 "Yesterday's tasks and today's priorities cannot be empty") ;;
  existing_report <- gets (fun w =>
    Coll.find_one
      (fun r => Py.eqb (report_date r) date && Py.eqb (report_name r) name)
      (reports_collection w)) ;;
  raise_if (is_some existing_report)
    (http 400 "Report already exists for this user and date") ;;
  let report := mkReport date name yesterday today blockers in
  modify (set_reports (Coll.insert_one report)) ;;
  ret (lit "Report saved successfully").

(** ** Users *)

Definition add_user (name token : str) : M str :=
  existing_user <- gets (fun w =>
    Coll.find_one (fun u => Py.eqb (user_name u) name)
                  (users_collection w)) ;;
  raise_if (is_some existing_user) (http 400 "User already exists") ;;
  let user := mkUser name in
  modify (set_users (Coll.insert_one user)) ;;
  ret (lit "User added successfully").

Definition delete_user (name token : str) : M str :=
  existing_user <- gets (fun w =>
    Coll.find_one (fun u => Py.eqb (user_name u) name)
                  (users_collection w)) ;;
  raise_if (negb (is_some existing_user)) (http 404 "User not found") ;;
  modify (set_users
            (Coll.delete_one (fun u => Py.eqb (user_name u) name))) ;;
  modify (set_reports
            (Coll.delete_many (fun r => Py.eqb (report_name r) name))) ;;
  ret (lit "User deleted successfully").

Definition get_users (token : str) : M (list str) :=
  users <- gets users_collection ;;
  ret (map user_name users).

Definition get_reports (date token : str) : M (list ReportRow) :=
  reports <- gets (fun w =>
    Coll.find (fun r => Py.eqb (report_date r) date)
              (reports_collection w)) ;;
  ret (map (fun '(i, report) =>
              mkReportRow (i + 1) (report_name report)
                          (report_yesterday report) (report_today report)
                          (report_blockers report))
           (enumerate 0 reports)).

(** ** Action items *)

(** One pass of the loop that builds [content]. *)
Definition content_entry (report : Report) : str :=
  report_name report ++ lit ":" ++ nl
  ++ lit "- Yesterday: " ++ report_yesterday report ++ nl
  ++ lit "- Today: " ++ report_today report ++ nl
  ++ lit "- Blockers: " ++ report_blockers report ++ nl ++ nl.

Definition build_content (reports : list Report) : str :=
  fold_left (fun content report => content ++ content_entry report)
            reports (lit "Daily Reports:" ++ nl).

(** The fixed part of the prompt, up to and including [Reports:]. *)
Definition prompt_instructions : str :=
  lit "From the following daily reports, extract the main and unique action items based on the 'Today's Priorities' field. " ++ nl
  ++ lit "    Follow these guidelines:" ++ nl
  ++ lit "    - Extract each distinct task as a separate action item - do not combine unrelated tasks, even if they come from the same person." ++ nl
  ++ lit "    - For example, if one person mentions both " ++ dquote
  ++ lit "lead generation" ++ dquote ++ lit " and " ++ dquote
  ++ lit "MOM automation implementation" ++ dquote
  ++ lit ", treat them as two separate action items." ++ nl
  ++ lit "    - Only consolidate tasks that are directly related (e.g., multiple aspects of the same feature like "
  ++ dquote ++ lit "enhancing and testing" ++ dquote
  ++ lit " the same agents)." ++ nl
  ++ lit "    - Focus on the primary objectives for the day." ++ nl
  ++ lit "    - Each action item should be distinct and represent a unique goal or task." ++ nl
  ++ lit "    - Output in bullet point format using this structure:" ++ nl
  ++ lit "    " ++ bullet ++ lit " [Action Item]" ++ nl
  ++ lit "    - Ensure no unrelated tasks are merged together." ++ nl
  ++ nl
  ++ lit "    Reports:" ++ nl.

Definition build_prompt (reports : list Report) : str :=
  prompt_instructions ++ build_content reports.

Definition generate_action_items (date token : str) : M str :=
  reports <- gets (fun w =>
    Coll.find (fun r => Py.eqb (report_date r) date)
              (reports_collection w)) ;;
  raise_if (is_nil reports) (http 404 "No reports found for this date") ;;
  existing_action_items <- gets (fun w =>
    Coll.find_one (fun a => Py.eqb (ai_date a) date)
                  (action_items_collection w)) ;;
  match existing_action_items with
  | Some existing => ret (ai_items existing)
  | None =>
      let prompt := build_prompt reports in
      try_except
        (make_client ;;
         response_content <- ainvoke prompt ;;
         let action_items_text := Py.strip response_content in
         let action_items := mkActionItems date action_items_text in
         modify (set_action_items (Coll.insert_one action_items)) ;;
         ret action_items_text)
        (fun _ => raise (http 500 "Failed to generate action items"))
  end.

Definition get_action_items (date token : str) : M str :=
  action_items <- gets (fun w =>
    Coll.find_one (fun a => Py.eqb (ai_date a) date)
                  (action_items_collection w)) ;;
  match action_items with
  | Some a => ret (ai_items a)
  | None => ret []
  end.

(** ** Export *)

Definition table_headers : list str :=
  [lit "S.No"; lit "Team Member"; lit "Yesterday's Tasks";
   lit "Today's Priorities"; lit "Blockers"].

Definition and_then {A B : Type} (o : option A) (k : A -> option B)
  : option B :=
  match o with Some a => k a | None => None end.

(** python-docx is handed [text]; [None] stands for its
    [ValueError]. *)
Definition accept (text : str) : option unit :=
  if docx_accepts text then Some tt else None.

(** [table.cell(i, j).text = text] and [row.cells[j].text = text]
    for the row [i]: the cell is looked up, then the text is set. *)
Definition write_cell (table : list (list str)) (i j : nat) (text : str)
  : option (list (list str)) :=
  and_then (Docx.set_cell table i j text) (fun t =>
  and_then (accept text) (fun _ => Some t)).

(** [for i, header in enumerate(headers): table.cell(0, i).text = header] *)
Definition fill_headers (table : list (list str)) : option (list (list str)) :=
  fold_left (fun t '(i, header) =>
               and_then t (fun t => write_cell t 0 i header))
            (enumerate 0 table_headers) (Some table).

(** The body of the loop over [enumerate(reports, 1)]. *)
Definition fill_row (table : list (list str)) (i : nat) (report : Report)
  : option (list (list str)) :=
  and_then (write_cell table i 0 (Py.str_of_int i)) (fun t =>
  and_then (write_cell t i 1 (report_name report)) (fun t =>
  and_then (write_cell t i 2 (report_yesterday report)) (fun t =>
  and_then (write_cell t i 3 (report_today report)) (fun t =>
  write_cell t i 4 (Py.or_ (report_blockers report) (lit "None")))))).

Definition fill_rows (table : list (list str)) (reports : list Report)
  : option (list (list str)) :=
  fold_left (fun t '(i, report) =>
               and_then t (fun t => fill_row t i report))
            (enumerate 1 reports) (Some table).

(** The action-items section: present when the record exists and its
    text is not empty. *)
Definition action_section (action_items : option ActionItems)
  : list Block :=
  match action_items with
  | Some a =>
      if Py.truthy (ai_items a)
      then [Heading (lit "Action Items") 1; Paragraph [ai_items a]]
      else []
  | None => []
  end.

Definition docx_media_type : str :=
  lit "application/vnd.openxmlformats-officedocument.wordprocessingml.document".

(** [doc.add_heading("Action Items", level=1)] and the paragraph with
    its run, written when the record exists and its text is not
    empty. *)
Definition add_action_section (action_items : option ActionItems)
  : option (list Block) :=
  match action_items with
  | Some a =>
      if Py.truthy (ai_items a)
      then and_then (accept (lit "Action Items")) (fun _ =>
           and_then (accept (ai_items a)) (fun _ =>
           Some [Heading (lit "Action Items") 1; Paragraph [ai_items a]]))
      else Some []
  | None => Some []
  end.

(** The document as [download_report] builds it, step by step:
    the two headings, the table and its cells, the action items.
    The table object is shared with the document it was added to, so
    the cells written after [add_table] show in the document.  [None]
    stands for an exception of python-docx ([IndexError] of a cell
    access, [ValueError] of a text), which leaves the handler as an
    exception that is not an [HTTPException]. *)
Definition build_document (date : str) (reports : list Report)
  (action_items : option ActionItems) : option Document :=
  let title := lit "MOM Consolidated Report - " ++ date in
  and_then (accept title) (fun _ =>
  and_then (accept (lit "Daily Progress Reports")) (fun _ =>
  let table := Docx.new_table (List.length reports + 1) 5 in
  and_then (fill_headers table) (fun table =>
  and_then (fill_rows table reports) (fun table =>
  and_then (add_action_section action_items) (fun section =>
  Some ([Heading title 0;
         Heading (lit "Daily Progress Reports") 1;
         Table (lit "Table Grid") table] ++ section)))))).

(** [doc.save(file_path)]: the file is written, or the call raises
    and [saved_files] stays as it is. *)
Definition doc_save (file_path : str) (doc : Document) : M unit :=
  fun w =>
    if doc_save_ok (List.length (saved_files w)) file_path
    then (Ok tt, set_saved_files (fun fs => fs ++ [(file_path, doc)]) w)
    else (Raise OtherExc, w).

(** [GET /download_report/{date}] *)
Definition download_report (date token : str) : M FileResponse :=
  reports <- gets (fun w =>
    Coll.find (fun r => Py.eqb (report_date r) date)
              (reports_collection w)) ;;
  action_items <- gets (fun w =>
    Coll.find_one (fun a => Py.eqb (ai_date a) date)
                  (action_items_collection w)) ;;
  raise_if (is_nil reports) (http 404 "No reports found for this date") ;;
  match build_document date reports action_items with
  | None => raise OtherExc
  | Some doc =>
      let file_path := lit "mom-report-" ++ date ++ lit ".docx" in
      doc_save file_path doc ;;
      ret (mkFileResponse file_path file_path docx_media_type)
  end.

(** ** Start-up *)

Definition admin_email_default : str := lit "aravind@gmail.com".
Definition admin_password_default : str := lit "Admin@1234".

Definition startup_event : M unit :=
  let admin_email' := admin_email_default in
  let admin_password' := admin_password_default in
  admin <- gets (fun w =>
    Coll.find_one (fun a => Py.eqb (admin_email a) admin_email')
                  (admins_collection w)) ;;
  if negb (is_some admin)
  then
    let hashed_password := pwd_hash admin_password' in
    modify (set_admins
              (Coll.insert_one (mkAdmin admin_email' hashed_password)))
  else ret tt.

End Handlers.

(* ================================================================== *)
(** * The error classes of the specification *)
(* ================================================================== *)

(** Each class is the set of exceptions the handlers raise for it. *)

Definition ValidationError (e : exn) : Prop :=
  e = http 400 "Each field must not exceed 10 words"
  \/ e = http 400 "Yesterday's tasks and today's priorities cannot be empty".

Definition Conflict (e : exn) : Prop :=
  e = http 400 "Report already exists for this user and date"
  \/ e = http 400 "User already exists".

Definition NotFound (e : exn) : Prop :=
  e = http 404 "User not found"
  \/ e = http 404 "No reports found for this date".

Definition Unauthorized (e : exn) : Prop :=
  e = http 401 "Invalid email or password".

Definition GenerationError (e : exn) : Prop :=
  e = http 500 "Failed to generate action items".

(** The HTTP status a raised exception is answered with; an exception
    that is not an [HTTPException] is answered with 500. *)
Definition http_status (e : exn) : Z :=
  match e with
  | HTTPExc h => status_code h
  | OtherExc => 500
  end.

(* ================================================================== *)
(** * Views of the world used in the statements *)
(* ================================================================== *)

Definition report_key (r : Report) : str * str :=
  (report_date r, report_name r).

(** A report is stored for the pair [(date, name)]. *)
Definition has_report (w : World) (date name : str) : Prop :=
  exists r, In r (reports_collection w)
            /\ report_date r = date /\ report_name r = name.

(** At most one report per [(date, name)] pair. *)
Definition ReportsUnique (w : World) : Prop :=
  NoDup (map report_key (reports_collection w)).

(** [name] is in the user directory. *)
Definition user_in (w : World) (name : str) : Prop :=
  exists u, In u (users_collection w) /\ user_name u = name.

(** No two users share a name. *)
Definition UsersUnique (w : World) : Prop :=
  NoDup (map user_name (users_collection w)).

(** The reports of a date, in listing order. *)
Definition reports_of (w : World) (date : str) : list Report :=
  Coll.find (fun r => Py.eqb (report_date r) date) (reports_collection w).

(** The cached action items of a date: what the cache lookup finds. *)
Definition cached (w : World) (date : str) : option ActionItems :=
  Coll.find_one (fun a => Py.eqb (ai_date a) date)
                (action_items_collection w).

(** The world after the language model has been sent the prompt of
    [date]. *)
Definition called (w : World) (date : str) : World :=
  set_llm_calls (fun l => l ++ [build_prompt (reports_of w date)]) w.

(** The admin record the login looks at. *)
Definition admin_of (w : World) (email : str) : option Admin :=
  Coll.find_one (fun a => Py.eqb (admin_email a) email)
                (admins_collection w).

(** A submitted form. *)
Record Submission := mkSubmission {
  sub_date : str;
  sub_name : str;
  sub_yesterday : str;
  sub_today : str;
  sub_blockers : str }.

Definition submit (s : Submission) : M str :=
  save_report (sub_date s) (sub_name s) (sub_yesterday s) (sub_today s)
              (sub_blockers s).

(** The world after a sequence of submissions, one after the other;
    a failed submission does not stop the ones after it. *)
Fixpoint submit_all (subs : list Submission) (w : World) : World :=
  match subs with
  | [] => w
  | s :: rest => submit_all rest (snd (submit s w))
  end.

(** The spec's reading of a word count: the number of places where a
    word starts, that is a code point that is not white space and
    follows white space or the start of the text. *)
Fixpoint word_starts (after_space : bool) (s : str) : nat :=
  match s with
  | [] => 0
  | c :: r =>
      if Py.isspace c then word_starts true r
      else (if after_space then 1 else 0) + word_starts false r
  end.

Definition words_spec (s : str) : nat := word_starts true s.

(** The row the export writes for the [i]-th report of the date. *)
Definition export_row (ir : nat * Report) : list str :=
  let '(i, report) := ir in
  [Py.str_of_int i; report_name report; report_yesterday report;
   report_today report; Py.or_ (report_blockers report) (lit "None")].

(** The table of the export as a whole: the header row, then one row
    per report, numbered from 1 in listing order. *)
Definition export_table (reports : list Report) : list (list str) :=
  table_headers :: map export_row (enumerate 1 reports).

(** The exported document as a whole. *)
Definition export_document (date : str) (reports : list Report)
  (action_items : option ActionItems) : Document :=
  [Heading (lit "MOM Consolidated Report - " ++ date) 0;
   Heading (lit "Daily Progress Reports") 1;
   Table (lit "Table Grid") (export_table reports)]
  ++ action_section action_items.

(** The texts the export hands to python-docx. *)
Definition export_texts (date : str) (reports : list Report)
  (action_items : option ActionItems) : list str :=
  [lit "MOM Consolidated Report - " ++ date; lit "Daily Progress Reports"]
  ++ table_headers
  ++ List.concat (map export_row (enumerate 1 reports))
  ++ match action_items with
     | Some a =>
         if Py.truthy (ai_items a)
         then [lit "Action Items"; ai_items a]
         else []
     | None => []
     end.

Definition export_path (date : str) : str :=
  lit "mom-report-" ++ date ++ lit ".docx".

(** The data rows of the tables of a document: all rows but the first
    of each table. *)
Definition data_rows (doc : Document) : list (list str) :=
  flat_map (fun b => match b with
                     | Table _ cells => tl cells
                     | _ => []
                     end) doc.

(** The cell of a row under the [Blockers] header. *)
Definition blockers_cell (row : list str) : str := nth 4 row [].

(* ================================================================== *)
(** * The report lookup and the application as a whole *)
(* ================================================================== *)

(** The [report] object of the answer of [check_report]. *)
Record CheckedReport := mkCheckedReport {
  cr_yesterday : str;
  cr_today : str;
  cr_blockers : str;
  cr_id : str }.

(** [GET /check_report/{date}/{name}].  [None] is the answer
    [{"exists": False}], [Some] the answer with [exists] true.
    [object_id] gives [str(report["_id"])], the identifier the store
    assigned to a document. *)
Definition check_report (object_id : Report -> str) (date name : str)
  : M (option CheckedReport) :=
  report <- gets (fun w =>
    Coll.find_one
      (fun r => Py.eqb (report_date r) date && Py.eqb (report_name r) name)
      (reports_collection w)) ;;
  match report with
  | Some report =>
      ret (Some (mkCheckedReport (report_yesterday report)
                                 (report_today report)
                                 (report_blockers report)
                                 (object_id report)))
  | None => ret None
  end.

(** At most one cached record per date. *)
Definition ActionItemsUnique (w : World) : Prop :=
  NoDup (map ai_date (action_items_collection w)).

(** The fields of a report that passed the checks of [save_report]:
    between 1 and 10 words each. *)
Definition report_valid (r : Report) : Prop :=
  (1 <= count_words (report_yesterday r) <= 10)
  /\ (1 <= count_words (report_today r) <= 10).

Definition ReportsValid (w : World) : Prop :=
  Forall report_valid (reports_collection w).

Definition Consistent (w : World) : Prop :=
  ReportsUnique w /\ UsersUnique w /\ ActionItemsUnique w /\ ReportsValid w.

(** The cookie jar of a request that carries [token]. *)
Definition with_token (token : str) : Request :=
  mkRequest [(lit "access_token", token)].

(** The calls that reach the stores: the routes that answer with data
    (the pages rendered from templates aside) and the start-up event. *)
Inductive Call :=
| Startup
| PostLogin (email password : str)
| GetCheckReport (date name : str)
| PostSaveReport (date name yesterday today blockers : str)
| PostAddUser (request : Request) (name : str)
| PostDeleteUser (request : Request) (name : str)
| GetUsers (request : Request)
| GetReports (request : Request) (date : str)
| GetGenerateActionItems (request : Request) (date : str)
| GetActionItems (request : Request) (date : str)
| GetDownloadReport (request : Request) (date : str).

Section Serve.

Variable pwd_verify : str -> str -> option bool.
Variable pwd_hash : str -> str.
Variable llm_ainvoke : nat -> str -> option str.
Variable object_id : Report -> str.
Variable llm_client_ok : nat -> bool.
Variable docx_accepts : str -> bool.
Variable doc_save_ok : nat -> str -> bool.

(** The world after a call, whether it returned or raised. *)
Definition serve (c : Call) (w : World) : World :=
  match c with
  | Startup => snd (startup_event pwd_hash w)
  | PostLogin email password => snd (login pwd_verify email password w)
  | GetCheckReport date name => snd (check_report object_id date name w)
  | PostSaveReport date name yesterday today blockers =>
      snd (save_report date name yesterday today blockers w)
  | PostAddUser request name => snd (Depends request (add_user name) w)
  | PostDeleteUser request name => snd (Depends request (delete_user name) w)
  | GetUsers request => snd (Depends request get_users w)
  | GetReports request date => snd (Depends request (get_reports date) w)
  | GetGenerateActionItems request date =>
      snd (Depends request
             (generate_action_items llm_ainvoke llm_client_ok date) w)
  | GetActionItems request date =>
      snd (Depends request (get_action_items date) w)
  | GetDownloadReport request date =>
      snd (Depends request
             (download_report docx_accepts doc_save_ok date) w)
  end.

Fixpoint serve_all (calls : list Call) (w : World) : World :=
  match calls with
  | [] => w
  | c :: rest => serve_all rest (serve c w)
  end.

End Serve.

(** The ways a request can change the world. *)
Inductive effect (w : World) : World -> Prop :=
| effect_none : effect w w
| effect_report (r : Report) :
    ~ has_report w (report_date r) (report_name r) ->
    report_valid r ->
    effect w (set_reports (Coll.insert_one r) w)
| effect_user (name : str) :
    ~ user_in w name ->
    effect w (set_users (Coll.insert_one (mkUser name)) w)
| effect_delete (name : str) :
    effect w
      (set_reports (Coll.delete_many (fun r => Py.eqb (report_name r) name))
         (set_users (Coll.delete_one (fun u => Py.eqb (user_name u) name)) w))
| effect_called (date : str) :
    effect w (called w date)
| effect_cached (date text : str) :
    cached w date = None ->
    effect w (set_action_items (Coll.insert_one (mkActionItems date text))
                               (called w date))
| effect_file (path : str) (doc : Document) :
    effect w (set_saved_files (fun fs => fs ++ [(path, doc)]) w).

(** The row the listing gives, as the export prints it. *)
Definition printed_row (row : ReportRow) : list str :=
  [Py.str_of_int (row_sno row); row_name row; row_yesterday row;
   row_today row; Py.or_ (row_blockers row) (lit "None")].

(* ================================================================== *)
(** * Concrete scenarios *)
(* ================================================================== *)

Module Scenario.

Definition day : str := lit "2024-01-01".
Definition alice : str := lit "Alice".
Definition bob : str := lit "Bob".
Definition mallory : str := lit "Mallory".
Definition admin_token : str := lit "aravind@gmail.com".

Definition empty_world : World := mkWorld [] [] [] [] [] [].

Definition alice_form : Submission :=
  mkSubmission day alice (lit "wrote tests") (lit "review PR") [].

Definition alice_report : Report :=
  mkReport day alice (lit "wrote tests") (lit "review PR") [].

Definition bob_report : Report :=
  mkReport day bob (lit "fixed login") (lit "deploy build")
           (lit "None").

(** Alice has reported for [day]. *)
Definition alice_reported : World :=
  mkWorld [mkUser alice] [alice_report] [] [] [] [].

(** Alice and Bob are users and have both reported for [day]; the
    action items of [day] are cached. *)
Definition team_world : World :=
  mkWorld [mkUser alice; mkUser bob] [alice_report; bob_report]
          [mkActionItems day (lit "* review PR")] [] [] [].

(** An admin other than the default one is registered. *)
Definition other_admin : Admin :=
  mkAdmin (lit "root@example.com") (lit "$2b$12$hash").

Definition other_admin_world : World :=
  mkWorld [] [] [] [other_admin] [] [].

Definition default_admin_world : World :=
  mkWorld [] [] [] [mkAdmin admin_email_default (lit "$2b$12$seed")] [] [].

(** A password check that accepts one password, raises on a hash it
    cannot read and rejects the rest. *)
Definition toy_verify (plain hashed : str) : option bool :=
  if Py.eqb hashed (lit "broken") then None
  else Some (Py.eqb plain (lit "Admin@1234")).

Definition toy_hash (plain : str) : str := lit "$2b$12$seed".

(** A language model that fails on its first call and answers from
    then on. *)
Definition flaky_llm (n : nat) (prompt : str) : option str :=
  match n with
  | O => None
  | S _ => Some (lit " * review PR ")
  end.

Definition steady_llm (n : nat) (prompt : str) : option str :=
  Some (lit " * review PR ").

(** The client of the language model can always be built. *)
Definition client_ok (n : nat) : bool := true.

(** No client can be built. *)
Definition no_client (n : nat) : bool := false.

(** A check of texts that takes tab, line feed, carriage return and
    everything from the space on. *)
Definition plain_text (text : str) : bool :=
  forallb (fun c => (c =? 9) || (c =? 10) || (c =? 13) || (32 <=? c))%N
          text.

(** A file system that writes a file unless its name has a slash or
    a NUL. *)
Definition disk_ok (n : nat) (path : str) : bool :=
  forallb (fun c => negb ((c =? 47) || (c =? 0)))%N path.

(** The world after an admin has deleted both users of
    [team_world]: the reports of [day] are gone, its cached action
    items are not. *)
Definition orphan_cache_world : World :=
  snd (delete_user bob admin_token
         (snd (delete_user alice admin_token team_world))).

End Scenario.

(* ================================================================== *)
(** * Strings *)
(* ================================================================== *)

Unset Implicit Arguments.

Lemma eqb_eq (a b : str) : Py.eqb a b = true <-> a = b.
Proof.
  revert b; induction a as [|x a IH]; intros [|y b]; simpl;
    try (split; [discriminate | discriminate]); try tauto.
  rewrite andb_true_iff, N.eqb_eq, IH.
  split; [intros [-> ->]; reflexivity | intros H; inversion H; auto].
Qed.

Lemma eqb_refl (a : str) : Py.eqb a a = true.
Proof. apply eqb_eq; reflexivity. Qed.

Lemma eqb_neq (a b : str) : Py.eqb a b = false <-> a <> b.
Proof.
  rewrite <- eqb_eq. destruct (Py.eqb a b); split; congruence.
Qed.

Lemma truthy_false (s : str) : Py.truthy s = false <-> s = [].
Proof. destruct s; simpl; split; congruence. Qed.

Lemma truthy_true (s : str) : Py.truthy s = true <-> s <> [].
Proof. destruct s; simpl; split; congruence. Qed.

(** [lstrip] removes a prefix of white space and nothing else. *)
Lemma lstrip_split (s : str) :
  exists ws, s = ws ++ Py.lstrip s /\ forallb Py.isspace ws = true.
Proof.
  induction s as [|c r [ws [E F]]]; simpl.
  - exists []; auto.
  - destruct (Py.isspace c) eqn:Hc.
    + exists (c :: ws); simpl; rewrite Hc, F; split; [f_equal; exact E | auto].
    + exists []; auto.
Qed.

(** [rstrip] removes a suffix of white space and nothing else. *)
Lemma rstrip_split (s : str) :
  exists ws, s = Py.rstrip s ++ ws /\ forallb Py.isspace ws = true.
Proof.
  unfold Py.rstrip.
  destruct (lstrip_split (rev s)) as [ws [E F]].
  exists (rev ws); split.
  - rewrite <- rev_app_distr, <- E, rev_involutive; reflexivity.
  - rewrite forallb_forall in *. intros x Hx. apply F, in_rev, Hx.
Qed.

Lemma split_from_lstrip (s : str) :
  Py.split_from [] (Py.lstrip s) = Py.split_from [] s.
Proof.
  induction s as [|c r IH]; simpl; auto.
  destruct (Py.isspace c) eqn:Hc; auto. simpl; rewrite Hc; reflexivity.
Qed.

Lemma split_from_trailing (ws : str) :
  forallb Py.isspace ws = true ->
  forall s cur, Py.split_from cur (s ++ ws) = Py.split_from cur s.
Proof.
  intros F s; induction s as [|c r IH]; intros cur; simpl.
  - revert cur; induction ws as [|x ws IHw]; intros cur; simpl; auto.
    simpl in F; apply andb_true_iff in F as [Hx F]. rewrite Hx.
    destruct cur; rewrite (IHw F); reflexivity.
  - destruct (Py.isspace c); [destruct cur|]; rewrite IH; reflexivity.
Qed.

(** Stripping first does not change the words found. *)
Lemma split_strip (s : str) : Py.split (Py.strip s) = Py.split s.
Proof.
  unfold Py.split, Py.strip.
  destruct (rstrip_split (Py.lstrip s)) as [ws [E F]].
  rewrite <- (split_from_trailing ws F (Py.rstrip (Py.lstrip s)) []), <- E.
  apply split_from_lstrip.
Qed.

Lemma split_from_length (s : str) : forall cur,
  List.length (Py.split_from cur s)
  = match cur with
    | [] => word_starts true s
    | _ :: _ => 1 + word_starts false s
    end.
Proof.
  induction s as [|c r IH]; intros cur; simpl.
  - destruct cur; reflexivity.
  - destruct (Py.isspace c).
    + destruct cur; simpl; rewrite IH; reflexivity.
    + rewrite IH. destruct cur; reflexivity.
Qed.

(** [count_words] counts the words of the text. *)
Lemma count_words_spec (s : str) : count_words s = words_spec s.
Proof.
  unfold count_words, words_spec. rewrite split_strip.
  unfold Py.split. apply split_from_length.
Qed.

Lemma lstrip_nil_iff (s : str) :
  Py.lstrip s = [] <-> forallb Py.isspace s = true.
Proof.
  induction s as [|c r IH]; simpl; [tauto|].
  destruct (Py.isspace c); simpl; [exact IH | split; discriminate].
Qed.

(** A text is empty after trimming exactly when it is all white
    space. *)
Lemma strip_nil_iff (s : str) :
  Py.strip s = [] <-> forallb Py.isspace s = true.
Proof.
  unfold Py.strip. split.
  - intros H. destruct (rstrip_split (Py.lstrip s)) as [ws [E F]].
    rewrite H in E; simpl in E.
    destruct (lstrip_split s) as [ws' [E' F']].
    rewrite E', forallb_app, F'. rewrite E. exact F.
  - intros H. apply lstrip_nil_iff in H. rewrite H. reflexivity.
Qed.

(* ================================================================== *)
(** * Collections *)
(* ================================================================== *)

Lemma find_one_none {A : Type} (q : A -> bool) (c : list A) :
  Coll.find_one q c = None <-> forall d, In d c -> q d = false.
Proof.
  unfold Coll.find_one. split.
  - intros H d Hd. exact (find_none q c H d Hd).
  - induction c as [|d r IH]; simpl; intros H; auto.
    rewrite (H d (or_introl eq_refl)). apply IH. intros; apply H; right; auto.
Qed.

Lemma find_one_some {A : Type} (q : A -> bool) (c : list A) (d : A) :
  Coll.find_one q c = Some d -> In d c /\ q d = true.
Proof. apply find_some. Qed.

Lemma find_one_is_some {A : Type} (q : A -> bool) (c : list A) :
  is_some (Coll.find_one q c) = true <-> exists d, In d c /\ q d = true.
Proof.
  destruct (Coll.find_one q c) as [d|] eqn:E; simpl.
  - split; auto. intros _. exists d. apply find_one_some, E.
  - split; [discriminate|]. intros [d [Hd Hq]].
    rewrite find_one_none in E. rewrite (E d Hd) in Hq. discriminate.
Qed.

(** [delete_one] takes out the first matching document and leaves the
    documents around it as they are. *)
Lemma delete_one_split {A : Type} (q : A -> bool) (c : list A) (d : A) :
  Coll.find_one q c = Some d ->
  exists before after,
    c = before ++ d :: after
    /\ (forall x, In x before -> q x = false)
    /\ Coll.delete_one q c = before ++ after.
Proof.
  unfold Coll.find_one.
  induction c as [|x r IH]; simpl; [discriminate|].
  destruct (q x) eqn:Hq; intros H.
  - inversion H; subst. exists [], r. simpl. repeat split; auto.
    intros ? [].
  - destruct (IH H) as [b [a [E [Hb Hd]]]].
    exists (x :: b), a. simpl. rewrite E at 1. repeat split; auto.
    + intros y [<-|Hy]; auto.
    + f_equal; exact Hd.
Qed.

Lemma delete_many_in {A : Type} (q : A -> bool) (c : list A) (d : A) :
  In d (Coll.delete_many q c) <-> In d c /\ q d = false.
Proof.
  unfold Coll.delete_many. rewrite filter_In, negb_true_iff. tauto.
Qed.

Lemma NoDup_snoc {A : Type} (l : list A) (x : A) :
  NoDup l -> ~ In x l -> NoDup (l ++ [x]).
Proof.
  induction 1 as [|y l Hy Hl IH]; simpl; intros Hx.
  - constructor; [intros []|constructor].
  - constructor.
    + rewrite in_app_iff; simpl. intros [H|[H|[]]]; [auto | subst; auto].
    + apply IH. auto.
Qed.

(* ================================================================== *)
(** * [save_report] *)
(* ================================================================== *)

Lemma existing_report_iff (w : World) (date name : str) :
  is_some (Coll.find_one
             (fun r => Py.eqb (report_date r) date
                       && Py.eqb (report_name r) name)
             (reports_collection w)) = true
  <-> has_report w date name.
Proof.
  rewrite find_one_is_some. unfold has_report.
  split; intros [r [Hr H]]; exists r.
  - apply andb_true_iff in H as [H1 H2]. rewrite eqb_eq in H1, H2. auto.
  - destruct H as [H1 H2]. rewrite H1, H2, !eqb_refl. auto.
Qed.

Lemma save_report_too_long (w : World) (date name yesterday today blockers : str) :
  10 < count_words yesterday \/ 10 < count_words today ->
  save_report date name yesterday today blockers w
  = (Raise (http 400 "Each field must not exceed 10 words"), w).
Proof.
  intros H. unfold save_report. run.
  assert (E : (10 <? count_words yesterday) || (10 <? count_words today) = true).
  { apply orb_true_iff. rewrite !Nat.ltb_lt. exact H. }
  rewrite E. reflexivity.
Qed.

Lemma save_report_empty (w : World) (date name yesterday today blockers : str) :
  count_words yesterday <= 10 -> count_words today <= 10 ->
  Py.strip yesterday = [] \/ Py.strip today = [] ->
  save_report date name yesterday today blockers w
  = (Raise (http 400
       "Yesterday's tasks and today's priorities cannot be empty"), w).
Proof.
  intros Hy Ht H. unfold save_report. run.
  assert (E : (10 <? count_words yesterday) || (10 <? count_words today) = false).
  { apply orb_false_iff. rewrite !Nat.ltb_ge. auto. }
  rewrite E; simpl.
  assert (E2 : negb (Py.truthy (Py.strip yesterday))
               || negb (Py.truthy (Py.strip today)) = true).
  { apply orb_true_iff. rewrite !negb_true_iff, !truthy_false. exact H. }
  rewrite E2. reflexivity.
Qed.

Lemma save_report_valid (w : World) (date name yesterday today blockers : str) :
  count_words yesterday <= 10 -> count_words today <= 10 ->
  Py.strip yesterday <> [] -> Py.strip today <> [] ->
  save_report date name yesterday today blockers w
  = if is_some (Coll.find_one
                  (fun r => Py.eqb (report_date r) date
                            && Py.eqb (report_name r) name)
                  (reports_collection w))
    then (Raise (http 400 "Report already exists for this user and date"), w)
    else (Ok (lit "Report saved successfully"),
          set_reports
            (Coll.insert_one (mkReport date name yesterday today blockers)) w).
Proof.
  intros Hy Ht Sy St. unfold save_report. run.
  assert (E : (10 <? count_words yesterday) || (10 <? count_words today) = false).
  { apply orb_false_iff. rewrite !Nat.ltb_ge. auto. }
  rewrite E; simpl.
  assert (E2 : negb (Py.truthy (Py.strip yesterday))
               || negb (Py.truthy (Py.strip today)) = false).
  { apply orb_false_iff. rewrite !negb_false_iff, !truthy_true. auto. }
  rewrite E2; simpl.
  destruct (is_some _); reflexivity.
Qed.

(** The fields of a form are either rejected by validation or pass it. *)
Lemma fields_dec (yesterday today : str) :
  { 10 < count_words yesterday \/ 10 < count_words today }
  + { count_words yesterday <= 10 /\ count_words today <= 10
      /\ (Py.strip yesterday = [] \/ Py.strip today = []) }
  + { count_words yesterday <= 10 /\ count_words today <= 10
      /\ Py.strip yesterday <> [] /\ Py.strip today <> [] }.
Proof.
  destruct (le_lt_dec (count_words yesterday) 10) as [Hy|Hy];
    [|left; left; auto].
  destruct (le_lt_dec (count_words today) 10) as [Ht|Ht];
    [|left; left; auto].
  destruct (Py.strip yesterday) eqn:Sy; [left; right; auto|].
  destruct (Py.strip today) eqn:St; [left; right; auto|].
  right. repeat split; auto; discriminate.
Qed.

(** Whatever the outcome, a submission only ever appends to the report
    store, and touches nothing else. *)
Lemma save_report_world (w : World) (date name yesterday today blockers : str) :
  snd (save_report date name yesterday today blockers w) = w
  \/ (~ has_report w date name
      /\ snd (save_report date name yesterday today blockers w)
         = set_reports
             (Coll.insert_one (mkReport date name yesterday today blockers)) w).
Proof.
  destruct (fields_dec yesterday today) as [[H|[Hy [Ht H]]]|[Hy [Ht [Sy St]]]].
  - rewrite save_report_too_long by exact H. left; reflexivity.
  - rewrite save_report_empty by assumption. left; reflexivity.
  - rewrite save_report_valid by assumption.
    destruct (is_some _) eqn:E; [left; reflexivity|].
    right. split; [|reflexivity].
    rewrite <- existing_report_iff, E. discriminate.
Qed.

Lemma save_report_unique (w : World) (date name yesterday today blockers : str) :
  ReportsUnique w ->
  ReportsUnique (snd (save_report date name yesterday today blockers w)).
Proof.
  intros U.
  destruct (save_report_world w date name yesterday today blockers)
    as [->|[Hn ->]]; auto.
  unfold ReportsUnique, Coll.insert_one in *; simpl.
  rewrite map_app; simpl. apply NoDup_snoc; auto.
  intros Hin. apply in_map_iff in Hin as [r [Hk Hr]].
  apply Hn. exists r. unfold report_key in Hk. inversion Hk; auto.
Qed.

Lemma submit_all_unique (subs : list Submission) : forall w,
  ReportsUnique w -> ReportsUnique (submit_all subs w).
Proof.
  induction subs as [|s rest IH]; simpl; intros w U; auto.
  apply IH. apply save_report_unique, U.
Qed.

(** ** Claims on [save_report] *)

(** C1, as stated, fails: a submission for a stored [(date, name)]
    pair whose [yesterday] is empty is answered with the validation
    error, not with [Conflict]. *)
Lemma C1_counterexample :
  has_report Scenario.alice_reported Scenario.day Scenario.alice
  /\ ~ (exists e,
          fst (save_report Scenario.day Scenario.alice [] (lit "review PR") []
                           Scenario.alice_reported) = Raise e
          /\ Conflict e).
Proof.
  split.
  - exists Scenario.alice_report. simpl. auto.
  - intros [e [H C]]. vm_compute in H.
    injection H as <-. destruct C as [C|C]; vm_compute in C; discriminate C.
Qed.

(** C1 (amended): from a store with at most one report per
    [(date, name)] pair, every sequence of submissions leads to such a
    store; there, a submission for a pair that has a stored report
    fails with HTTP 400 and leaves the world unchanged, with [Conflict]
    when [yesterday] and [today] pass validation and with
    [ValidationError] when they do not. *)
Theorem C1_one_report_per_pair :
  forall (w : World) (subs : list Submission)
         (date name yesterday today blockers : str),
    ReportsUnique w ->
    has_report (submit_all subs w) date name ->
    ReportsUnique (submit_all subs w)
    /\ exists e,
         save_report date name yesterday today blockers (submit_all subs w)
         = (Raise e, submit_all subs w)
         /\ http_status e = 400%Z
         /\ (words_spec yesterday <= 10 -> words_spec today <= 10 ->
             Py.strip yesterday <> [] -> Py.strip today <> [] ->
             e = http 400 "Report already exists for this user and date"
             /\ Conflict e)
         /\ (10 < words_spec yesterday \/ 10 < words_spec today
             \/ Py.strip yesterday = [] \/ Py.strip today = [] ->
             ValidationError e).
Proof.
  intros w subs date name yesterday today blockers U H.
  split; [apply submit_all_unique, U|].
  set (w' := submit_all subs w) in *.
  apply existing_report_iff in H.
  rewrite <- !count_words_spec.
  destruct (fields_dec yesterday today) as [[V|[Hy [Ht V]]]|[Hy [Ht [Sy St]]]].
  - eexists; split; [apply save_report_too_long, V|].
    split; [reflexivity|]. split.
    + intros; lia.
    + intros _; left; reflexivity.
  - eexists; split; [apply save_report_empty; assumption|].
    split; [reflexivity|]. split.
    + intros _ _ A B. destruct V; contradiction.
    + intros _; right; reflexivity.
  - eexists; split.
    + rewrite save_report_valid by assumption. rewrite H. reflexivity.
    + split; [reflexivity|]. split.
      * intros; split; [reflexivity | left; reflexivity].
      * intros [A|[A|[A|A]]]; try lia; contradiction.
Qed.

Lemma C1_one_report_per_pair_witness :
  ReportsUnique Scenario.empty_world
  /\ has_report (submit_all [Scenario.alice_form] Scenario.empty_world)
                Scenario.day Scenario.alice
  /\ ReportsUnique (submit_all [Scenario.alice_form] Scenario.empty_world)
  /\ exists e,
       save_report Scenario.day Scenario.alice (lit "more tests")
                   (lit "merge PR") []
                   (submit_all [Scenario.alice_form] Scenario.empty_world)
       = (Raise e, submit_all [Scenario.alice_form] Scenario.empty_world)
       /\ http_status e = 400%Z.
Proof.
  assert (U : ReportsUnique Scenario.empty_world) by constructor.
  assert (H : has_report (submit_all [Scenario.alice_form] Scenario.empty_world)
                         Scenario.day Scenario.alice).
  { exists Scenario.alice_report. vm_compute. auto. }
  split; [exact U|]. split; [exact H|].
  destruct (C1_one_report_per_pair Scenario.empty_world
              [Scenario.alice_form] Scenario.day Scenario.alice
              (lit "more tests") (lit "merge PR") [] U H)
    as [U' [e [E [S _]]]].
  split; [exact U'|]. exists e. split; [exact E | exact S].
Defined.

(** C2: a submission whose [yesterday] or [today] has more than 10
    words, or is empty after trimming, fails with [ValidationError]
    (HTTP 400) and leaves the world unchanged; any other submission
    for a pair without a stored report succeeds and appends the report
    with exactly the submitted fields. *)
Theorem C2_validation :
  forall (w : World) (date name yesterday today blockers : str),
    (10 < words_spec yesterday \/ 10 < words_spec today
     \/ Py.strip yesterday = [] \/ Py.strip today = [] ->
     exists e,
       save_report date name yesterday today blockers w = (Raise e, w)
       /\ ValidationError e /\ http_status e = 400%Z)
    /\ (~ (10 < words_spec yesterday \/ 10 < words_spec today
           \/ Py.strip yesterday = [] \/ Py.strip today = []) ->
        ~ has_report w date name ->
        save_report date name yesterday today blockers w
        = (Ok (lit "Report saved successfully"),
           set_reports
             (fun reports =>
                reports ++ [mkReport date name yesterday today blockers])
             w)).
Proof.
  intros w date name yesterday today blockers.
  rewrite <- !count_words_spec.
  destruct (fields_dec yesterday today) as [[V|[Hy [Ht V]]]|[Hy [Ht [Sy St]]]];
    split.
  - intros _. eexists; split; [apply save_report_too_long, V|].
    split; [left|]; reflexivity.
  - intros N; exfalso; apply N; tauto.
  - intros _. eexists; split; [apply save_report_empty; assumption|].
    split; [right|]; reflexivity.
  - intros N; exfalso; apply N; tauto.
  - intros [A|[A|[A|A]]]; try lia; contradiction.
  - intros _ Hn. rewrite save_report_valid by assumption.
    rewrite <- existing_report_iff in Hn.
    destruct (is_some _); [exfalso; auto | reflexivity].
Qed.

Lemma C2_validation_witness :
  (exists e,
     save_report Scenario.day Scenario.bob
                 (lit "a b c d e f g h i j k") (lit "deploy build") []
                 Scenario.alice_reported
     = (Raise e, Scenario.alice_reported)
     /\ ValidationError e /\ http_status e = 400%Z)
  /\ save_report Scenario.day Scenario.bob
                 (lit "fixed login") (lit "deploy build") (lit "None")
                 Scenario.alice_reported
     = (Ok (lit "Report saved successfully"),
        set_reports (fun reports => reports ++ [Scenario.bob_report])
                    Scenario.alice_reported).
Proof.
  split.
  - apply (proj1 (C2_validation Scenario.alice_reported Scenario.day
                    Scenario.bob (lit "a b c d e f g h i j k")
                    (lit "deploy build") [])).
    left. vm_compute. lia.
  - apply (proj2 (C2_validation Scenario.alice_reported Scenario.day
                    Scenario.bob (lit "fixed login") (lit "deploy build")
                    (lit "None"))).
    + vm_compute. intros [A|[A|[A|A]]]; try lia; discriminate.
    + intros [r [[<-|[]] [_ E]]]. vm_compute in E. discriminate.
Defined.

(** C3, as stated, fails: with an empty user directory, a report for
    a name that is in no directory is accepted and stored. *)
Lemma C3_counterexample :
  ~ user_in Scenario.empty_world Scenario.mallory
  /\ fst (save_report Scenario.day Scenario.mallory (lit "nothing")
                      (lit "something") [] Scenario.empty_world)
     = Ok (lit "Report saved successfully")
  /\ reports_collection
       (snd (save_report Scenario.day Scenario.mallory (lit "nothing")
                         (lit "something") [] Scenario.empty_world))
     = [mkReport Scenario.day Scenario.mallory (lit "nothing")
                 (lit "something") []].
Proof.
  split; [intros [u [[] _]]|]. split; reflexivity.
Qed.

(** C3 (amended): [save_report] does not consult the user directory.
    Its outcome and the reports it stores are the same whatever the
    directory holds, and a submission that passes validation for a pair
    without a stored report is accepted and stored whether or not its
    name is in the directory. *)
Theorem C3_submission_ignores_directory :
  forall (w : World) (directory : list User)
         (date name yesterday today blockers : str),
    (fst (save_report date name yesterday today blockers
                      (set_users (fun _ => directory) w))
     = fst (save_report date name yesterday today blockers w)
     /\ snd (save_report date name yesterday today blockers
                         (set_users (fun _ => directory) w))
        = set_users (fun _ => directory)
                    (snd (save_report date name yesterday today blockers w)))
    /\ (words_spec yesterday <= 10 -> words_spec today <= 10 ->
        Py.strip yesterday <> [] -> Py.strip today <> [] ->
        ~ has_report w date name ->
        save_report date name yesterday today blockers w
        = (Ok (lit "Report saved successfully"),
           set_reports
             (fun reports =>
                reports ++ [mkReport date name yesterday today blockers])
             w)).
Proof.
  intros w directory date name yesterday today blockers. split.
  - unfold save_report. run.
    destruct ((10 <? count_words yesterday) || (10 <? count_words today));
      simpl; auto.
    destruct (negb (Py.truthy (Py.strip yesterday))
              || negb (Py.truthy (Py.strip today))); simpl; auto.
    destruct (is_some _); simpl; auto.
  - rewrite <- !count_words_spec. intros Hy Ht Sy St Hn.
    rewrite save_report_valid by assumption.
    rewrite <- existing_report_iff in Hn.
    destruct (is_some _); [exfalso; auto | reflexivity].
Qed.

Lemma C3_submission_ignores_directory_witness :
  ~ has_report Scenario.empty_world Scenario.day Scenario.mallory
  /\ save_report Scenario.day Scenario.mallory (lit "nothing")
                 (lit "something") [] Scenario.empty_world
     = (Ok (lit "Report saved successfully"),
        set_reports
          (fun reports =>
             reports ++ [mkReport Scenario.day Scenario.mallory
                                  (lit "nothing") (lit "something") []])
          Scenario.empty_world).
Proof.
  assert (Hn : ~ has_report Scenario.empty_world Scenario.day Scenario.mallory).
  { intros [r [[] _]]. }
  split; [exact Hn|].
  apply (proj2 (C3_submission_ignores_directory Scenario.empty_world []
                  Scenario.day Scenario.mallory (lit "nothing")
                  (lit "something") [])); try exact Hn;
    vm_compute; try lia; discriminate.
Defined.

(* ================================================================== *)
(** * [generate_action_items] and [get_action_items] *)
(* ================================================================== *)

Lemma reports_of_in (w : World) (date : str) (r : Report) :
  In r (reports_of w date) <-> In r (reports_collection w) /\ report_date r = date.
Proof.
  unfold reports_of, Coll.find. rewrite filter_In, eqb_eq. tauto.
Qed.

(** A date has no reports exactly when its listing is empty. *)
Lemma reports_of_nil_iff (w : World) (date : str) :
  reports_of w date = []
  <-> forall r, In r (reports_collection w) -> report_date r <> date.
Proof.
  split.
  - intros E r Hr Hd.
    assert (H : In r (reports_of w date)) by (apply reports_of_in; auto).
    rewrite E in H; exact H.
  - intros H. destruct (reports_of w date) as [|r l] eqn:E; auto.
    assert (Hr : In r (reports_of w date)) by (rewrite E; left; auto).
    apply reports_of_in in Hr as [Hr Hd]. destruct (H r Hr Hd).
Qed.

(** A cached record exists for a date exactly when the lookup finds
    one; what it finds is a record of that date. *)
Lemma cached_some_iff (w : World) (date : str) :
  (exists a, cached w date = Some a)
  <-> exists a, In a (action_items_collection w) /\ ai_date a = date.
Proof.
  unfold cached. split.
  - intros [a E]. exists a. apply find_one_some in E as [Hin Hq].
    rewrite eqb_eq in Hq. auto.
  - intros [a [Hin Hd]].
    destruct (Coll.find_one _ _) as [b|] eqn:E; [exists b; auto|].
    rewrite find_one_none in E. specialize (E a Hin).
    rewrite Hd, eqb_refl in E. discriminate.
Qed.

Lemma cached_date (w : World) (date : str) (a : ActionItems) :
  cached w date = Some a -> In a (action_items_collection w) /\ ai_date a = date.
Proof.
  intros E. apply find_one_some in E as [Hin Hq]. rewrite eqb_eq in Hq. auto.
Qed.

Lemma find_one_snoc_none {A : Type} (q : A -> bool) (c : list A) (d : A) :
  Coll.find_one q c = None -> q d = true ->
  Coll.find_one q (Coll.insert_one d c) = Some d.
Proof.
  unfold Coll.find_one, Coll.insert_one.
  induction c as [|x r IH]; simpl; intros H Hq.
  - rewrite Hq; reflexivity.
  - destruct (q x); [discriminate | auto].
Qed.

Section Generate.

Variable llm : nat -> str -> option str.
Variable client : nat -> bool.

Lemma generate_no_reports (w : World) (date token : str) :
  reports_of w date = [] ->
  generate_action_items llm client date token w
  = (Raise (http 404 "No reports found for this date"), w).
Proof.
  intros E. unfold generate_action_items. run.
  unfold reports_of in E. rewrite E. reflexivity.
Qed.

Lemma generate_cached (w : World) (date token : str) (a : ActionItems) :
  reports_of w date <> [] ->
  cached w date = Some a ->
  generate_action_items llm client date token w = (Ok (ai_items a), w).
Proof.
  intros Hr Hc. unfold generate_action_items. run.
  unfold reports_of in Hr. unfold cached in Hc.
  destruct (Coll.find _ (reports_collection w)); [congruence|]. simpl.
  rewrite Hc. reflexivity.
Qed.

Lemma generate_fresh (w : World) (date token : str) :
  reports_of w date <> [] ->
  cached w date = None ->
  generate_action_items llm client date token w
  = if client (List.length (llm_calls w))
    then match llm (List.length (llm_calls w))
                   (build_prompt (reports_of w date)) with
         | Some content =>
             (Ok (Py.strip content),
              set_action_items
                (Coll.insert_one (mkActionItems date (Py.strip content)))
                (called w date))
         | None =>
             (Raise (http 500 "Failed to generate action items"),
              called w date)
         end
    else (Raise (http 500 "Failed to generate action items"), w).
Proof.
  intros Hr Hc. unfold generate_action_items. run.
  unfold reports_of in *. unfold cached in Hc. unfold called, reports_of.
  destruct (Coll.find _ (reports_collection w)) eqn:E; [congruence|]. simpl.
  rewrite Hc. unfold make_client, ainvoke.
  destruct (client _); [|reflexivity].
  destruct (llm _ _); reflexivity.
Qed.

End Generate.

(** ** Claims on [generate_action_items] *)

(** C4: for a date with at least one report, when the cache holds a
    record for the date, [generate_action_items] returns its text and
    leaves the world as it is (no prompt is sent, nothing is written);
    so of two successive successful calls the second returns the text
    of the first, changes nothing, and the two together send at most
    one prompt. *)
Theorem C4_generate_idempotent :
  forall (llm : nat -> str -> option str) (client : nat -> bool)
         (w : World) (date token : str),
    reports_of w date <> [] ->
    (forall a, cached w date = Some a ->
               generate_action_items llm client date token w
               = (Ok (ai_items a), w))
    /\ (forall text1 text2,
          fst (generate_action_items llm client date token w) = Ok text1 ->
          fst (generate_action_items llm client date token
                 (snd (generate_action_items llm client date token w)))
          = Ok text2 ->
          text2 = text1
          /\ snd (generate_action_items llm client date token
                    (snd (generate_action_items llm client date token w)))
             = snd (generate_action_items llm client date token w)
          /\ List.length
               (llm_calls (snd (generate_action_items llm client date token
                    (snd (generate_action_items llm client date token w)))))
             <= List.length (llm_calls w) + 1).
Proof.
  intros llm client w date token Hr. split.
  - intros a Hc. apply generate_cached; assumption.
  - intros text1 text2.
    destruct (cached w date) as [a|] eqn:Hc.
    + rewrite !(generate_cached llm client w date token a Hr Hc); simpl.
      rewrite !(generate_cached llm client w date token a Hr Hc); simpl.
      intros H1 H2. split; [congruence|]. split; [reflexivity | lia].
    + rewrite (generate_fresh llm client w date token Hr Hc).
      destruct (client _); simpl; [|discriminate].
      destruct (llm _ _) as [content|]; simpl; [|discriminate].
      intros H1. injection H1 as <-.
      set (w1 := set_action_items _ _).
      assert (Hr1 : reports_of w1 date <> []) by exact Hr.
      assert (Hc1 : cached w1 date
                    = Some (mkActionItems date (Py.strip content))).
      { unfold cached, w1; simpl. apply find_one_snoc_none; [exact Hc|].
        simpl. apply eqb_refl. }
      rewrite (generate_cached llm client w1 date token _ Hr1 Hc1); simpl.
      intros H2. split; [congruence|]. split; [reflexivity|].
      rewrite length_app; simpl; lia.
Qed.

Lemma C4_generate_idempotent_witness :
  reports_of Scenario.alice_reported Scenario.day <> []
  /\ fst (generate_action_items Scenario.steady_llm Scenario.client_ok
            Scenario.day Scenario.admin_token Scenario.alice_reported)
     = Ok (lit "* review PR")
  /\ generate_action_items Scenario.steady_llm Scenario.client_ok
       Scenario.day Scenario.admin_token
       (snd (generate_action_items Scenario.steady_llm Scenario.client_ok
               Scenario.day Scenario.admin_token Scenario.alice_reported))
     = (Ok (lit "* review PR"),
        snd (generate_action_items Scenario.steady_llm Scenario.client_ok
               Scenario.day Scenario.admin_token Scenario.alice_reported)).
Proof.
  assert (Hr : reports_of Scenario.alice_reported Scenario.day <> [])
    by (vm_compute; discriminate).
  split; [exact Hr|]. split; [reflexivity|].
  apply (proj1 (C4_generate_idempotent Scenario.steady_llm
                  Scenario.client_ok
                  (snd (generate_action_items Scenario.steady_llm
                          Scenario.client_ok Scenario.day
                          Scenario.admin_token Scenario.alice_reported))
                  Scenario.day Scenario.admin_token Hr)
               (mkActionItems Scenario.day (lit "* review PR"))).
  reflexivity.
Defined.

(** C5: when the cache has no record for a date that has reports and
    the language model raises, be it when its client is built or when
    it is called, [generate_action_items] fails with [GenerationError]
    (HTTP 500) and stores nothing: the collections are unchanged and
    the cache still has no record for the date; the prompt log grows
    by the prompt when the client was built and is unchanged when it
    was not.  A later call for which the client is built and the
    language model answers succeeds and caches the answer. *)
Theorem C5_generation_failure_not_cached :
  forall (llm : nat -> str -> option str) (client : nat -> bool)
         (w : World) (date token : str),
    reports_of w date <> [] ->
    cached w date = None ->
    client (List.length (llm_calls w)) = false
    \/ llm (List.length (llm_calls w)) (build_prompt (reports_of w date))
       = None ->
    exists e w',
      generate_action_items llm client date token w = (Raise e, w')
      /\ (client (List.length (llm_calls w)) = true -> w' = called w date)
      /\ (client (List.length (llm_calls w)) = false -> w' = w)
      /\ GenerationError e /\ http_status e = 500%Z
      /\ action_items_collection w' = action_items_collection w
      /\ reports_collection w' = reports_collection w
      /\ users_collection w' = users_collection w
      /\ admins_collection w' = admins_collection w
      /\ cached w' date = None
      /\ (forall content,
            client (List.length (llm_calls w')) = true ->
            llm (List.length (llm_calls w'))
                (build_prompt (reports_of w' date))
            = Some content ->
            exists w'',
              generate_action_items llm client date token w'
              = (Ok (Py.strip content), w'')
              /\ cached w'' date
                 = Some (mkActionItems date (Py.strip content))).
Proof.
  intros llm client w date token Hr Hc Hl.
  exists (http 500 "Failed to generate action items").
  assert (R : forall w1 content,
            reports_of w1 date = reports_of w date ->
            cached w1 date = None ->
            client (List.length (llm_calls w1)) = true ->
            llm (List.length (llm_calls w1))
                (build_prompt (reports_of w1 date)) = Some content ->
            exists w'',
              generate_action_items llm client date token w1
              = (Ok (Py.strip content), w'')
              /\ cached w'' date
                 = Some (mkActionItems date (Py.strip content))).
  { intros w1 content Er Hc1 Hk Hl1.
    assert (Hr1 : reports_of w1 date <> []) by (rewrite Er; exact Hr).
    rewrite (generate_fresh llm client w1 date token Hr1 Hc1), Hk, Hl1.
    eexists; split; [reflexivity|].
    unfold cached; simpl. apply find_one_snoc_none; [exact Hc1|].
    simpl. apply eqb_refl. }
  rewrite (generate_fresh llm client w date token Hr Hc).
  destruct (client (List.length (llm_calls w))) eqn:K.
  - destruct Hl as [Hl|Hl]; [discriminate Hl|]. rewrite Hl.
    exists (called w date). split; [reflexivity|].
    split; [reflexivity|]. split; [discriminate|].
    split; [reflexivity|]. split; [reflexivity|].
    repeat (split; [reflexivity|]). split; [exact Hc|].
    intros content. apply R; [reflexivity | exact Hc].
  - exists w. split; [reflexivity|].
    split; [discriminate|]. split; [reflexivity|].
    split; [reflexivity|]. split; [reflexivity|].
    repeat (split; [reflexivity|]). split; [exact Hc|].
    intros content. apply R; [reflexivity | exact Hc].
Qed.

Lemma C5_generation_failure_not_cached_witness :
  reports_of Scenario.alice_reported Scenario.day <> []
  /\ cached Scenario.alice_reported Scenario.day = None
  /\ exists e,
       generate_action_items Scenario.flaky_llm Scenario.client_ok
         Scenario.day Scenario.admin_token Scenario.alice_reported
       = (Raise e, called Scenario.alice_reported Scenario.day)
       /\ GenerationError e
       /\ cached (called Scenario.alice_reported Scenario.day) Scenario.day
          = None.
Proof.
  assert (Hr : reports_of Scenario.alice_reported Scenario.day <> [])
    by (vm_compute; discriminate).
  split; [exact Hr|]. split; [reflexivity|].
  destruct (C5_generation_failure_not_cached Scenario.flaky_llm
              Scenario.client_ok Scenario.alice_reported Scenario.day
              Scenario.admin_token Hr eq_refl (or_intror eq_refl))
    as [e [w' [E [W [_ [G _]]]]]].
  exists e. rewrite (W eq_refl) in E.
  split; [exact E|]. split; [exact G | reflexivity].
Defined.

(** C10: for a date without reports, [generate_action_items] fails
    with [NotFound] (HTTP 404) and changes nothing, also when the cache
    holds a record for the date; [get_action_items] for the same date
    still returns the cached text. *)
Theorem C10_generate_without_reports :
  forall (llm : nat -> str -> option str) (client : nat -> bool)
         (w : World) (date token : str),
    reports_of w date = [] ->
    (exists e,
       generate_action_items llm client date token w = (Raise e, w)
       /\ NotFound e /\ http_status e = 404%Z)
    /\ (forall a, cached w date = Some a ->
                  get_action_items date token w = (Ok (ai_items a), w)).
Proof.
  intros llm client w date token Hr. split.
  - exists (http 404 "No reports found for this date").
    split; [apply generate_no_reports, Hr|].
    split; [right|]; reflexivity.
  - intros a Hc. unfold get_action_items. run.
    unfold cached in Hc. rewrite Hc. reflexivity.
Qed.

Lemma C10_generate_without_reports_witness :
  reports_of Scenario.orphan_cache_world Scenario.day = []
  /\ cached Scenario.orphan_cache_world Scenario.day
     = Some (mkActionItems Scenario.day (lit "* review PR"))
  /\ (exists e,
        generate_action_items Scenario.steady_llm Scenario.client_ok
          Scenario.day Scenario.admin_token Scenario.orphan_cache_world
        = (Raise e, Scenario.orphan_cache_world)
        /\ NotFound e /\ http_status e = 404%Z)
  /\ get_action_items Scenario.day Scenario.admin_token
       Scenario.orphan_cache_world
     = (Ok (lit "* review PR"), Scenario.orphan_cache_world).
Proof.
  assert (Hr : reports_of Scenario.orphan_cache_world Scenario.day = [])
    by reflexivity.
  split; [exact Hr|]. split; [reflexivity|].
  destruct (C10_generate_without_reports Scenario.steady_llm
              Scenario.client_ok Scenario.orphan_cache_world Scenario.day
              Scenario.admin_token Hr) as [G C].
  split; [exact G|]. exact (C _ eq_refl).
Defined.

(* ================================================================== *)
(** * [add_user] and [delete_user] *)
(* ================================================================== *)

Lemma existing_user_iff (w : World) (name : str) :
  is_some (Coll.find_one (fun u => Py.eqb (user_name u) name)
                         (users_collection w)) = true
  <-> user_in w name.
Proof.
  rewrite find_one_is_some. unfold user_in.
  split; intros [u [Hu H]]; exists u; split; auto.
  - apply eqb_eq, H.
  - apply eqb_eq, H.
Qed.

(** [add_user] keeps the names of the directory distinct. *)
Lemma add_user_unique (w : World) (name token : str) :
  UsersUnique w -> UsersUnique (snd (add_user name token w)).
Proof.
  intros U. unfold add_user. run.
  destruct (is_some _) eqn:E; simpl; auto.
  unfold UsersUnique, Coll.insert_one; simpl.
  rewrite map_app; simpl. apply NoDup_snoc; auto.
  intros Hin. apply in_map_iff in Hin as [u [Hn Hu]].
  assert (H : user_in w name) by (exists u; auto).
  apply existing_user_iff in H. congruence.
Qed.

Lemma delete_user_absent (w : World) (name token : str) :
  ~ user_in w name ->
  delete_user name token w = (Raise (http 404 "User not found"), w).
Proof.
  intros H. unfold delete_user. run.
  rewrite <- existing_user_iff in H.
  destruct (is_some _); [exfalso; auto | reflexivity].
Qed.

Lemma delete_user_present (w : World) (name token : str) :
  user_in w name ->
  delete_user name token w
  = (Ok (lit "User deleted successfully"),
     set_reports (Coll.delete_many (fun r => Py.eqb (report_name r) name))
       (set_users (Coll.delete_one (fun u => Py.eqb (user_name u) name)) w)).
Proof.
  intros H. unfold delete_user. run.
  apply existing_user_iff in H. rewrite H. reflexivity.
Qed.

(** In a directory with distinct names, taking out the document found
    for [name] takes the name out. *)
Lemma unique_remove (before after : list User) (u : User) :
  NoDup (map user_name (before ++ u :: after)) ->
  forall x, In x (before ++ after)
            <-> In x (before ++ u :: after) /\ user_name x <> user_name u.
Proof.
  intros U x. rewrite map_app in U; simpl in U.
  apply NoDup_remove_2 in U. rewrite <- map_app in U.
  rewrite !in_app_iff; simpl. split.
  - intros H. split; [tauto|].
    intros E. apply U. rewrite <- E. apply in_map, in_app_iff, H.
  - intros [[H|[H|H]] N]; auto. subst x. congruence.
Qed.

(** ** Claim on [delete_user] *)

(** C6: [delete_user] fails with [NotFound] (HTTP 404), changing
    nothing, when the name is not in the user directory.  Otherwise it
    succeeds; it takes the user document found for the name out of the
    directory and leaves the documents around it in place (with
    distinct names, the directory afterwards is the old one without
    that name); the report store afterwards is the old one, in order,
    without the reports of that name, whatever their date; action
    items, admins, the prompt log and the files are unchanged. *)
Theorem C6_delete_user_cascade :
  forall (w : World) (name token : str),
    (~ user_in w name ->
     exists e,
       delete_user name token w = (Raise e, w)
       /\ NotFound e /\ http_status e = 404%Z)
    /\ (user_in w name ->
        exists w',
          delete_user name token w
          = (Ok (lit "User deleted successfully"), w')
          /\ (exists before u after,
                users_collection w = before ++ u :: after
                /\ user_name u = name
                /\ (forall x, In x before -> user_name x <> name)
                /\ users_collection w' = before ++ after)
          /\ (UsersUnique w ->
              forall u, In u (users_collection w')
                        <-> In u (users_collection w) /\ user_name u <> name)
          /\ reports_collection w'
             = filter (fun r => negb (Py.eqb (report_name r) name))
                      (reports_collection w)
          /\ (forall r, In r (reports_collection w')
                        <-> In r (reports_collection w)
                            /\ report_name r <> name)
          /\ action_items_collection w' = action_items_collection w
          /\ admins_collection w' = admins_collection w
          /\ llm_calls w' = llm_calls w
          /\ saved_files w' = saved_files w).
Proof.
  intros w name token. split.
  - intros H. exists (http 404 "User not found").
    split; [apply delete_user_absent, H|]. split; [left|]; reflexivity.
  - intros H. eexists. split; [apply delete_user_present, H|]. simpl.
    apply existing_user_iff in H.
    destruct (Coll.find_one (fun u => Py.eqb (user_name u) name)
                            (users_collection w)) as [u|] eqn:F;
      [clear H | discriminate].
    destruct (delete_one_split _ _ _ F) as [before [after [E [Hb Hd]]]].
    apply find_one_some in F as [_ Hu]. apply eqb_eq in Hu.
    split.
    { exists before, u, after. repeat split; auto.
      intros x Hx. apply eqb_neq, Hb, Hx. }
    split.
    { intros U x. rewrite Hd. unfold UsersUnique in U. rewrite E in *.
      rewrite <- Hu. apply unique_remove, U. }
    split; [reflexivity|].
    split.
    { intros r. rewrite delete_many_in, eqb_neq. tauto. }
    repeat split; reflexivity.
Qed.

Lemma C6_delete_user_cascade_witness :
  user_in Scenario.team_world Scenario.alice
  /\ ~ user_in Scenario.team_world Scenario.mallory
  /\ (exists e,
        delete_user Scenario.mallory Scenario.admin_token Scenario.team_world
        = (Raise e, Scenario.team_world) /\ NotFound e)
  /\ exists w',
       delete_user Scenario.alice Scenario.admin_token Scenario.team_world
       = (Ok (lit "User deleted successfully"), w')
       /\ reports_collection w'
          = filter (fun r => negb (Py.eqb (report_name r) Scenario.alice))
                   (reports_collection Scenario.team_world)
       /\ action_items_collection w'
          = action_items_collection Scenario.team_world.
Proof.
  assert (Ha : user_in Scenario.team_world Scenario.alice).
  { exists (mkUser Scenario.alice). simpl; auto. }
  assert (Hm : ~ user_in Scenario.team_world Scenario.mallory).
  { intros [u [[<-|[<-|[]]] E]]; vm_compute in E; discriminate E. }
  split; [exact Ha|]. split; [exact Hm|]. split.
  - destruct (proj1 (C6_delete_user_cascade Scenario.team_world
                       Scenario.mallory Scenario.admin_token) Hm)
      as [e [E [N _]]].
    exists e; auto.
  - destruct (proj2 (C6_delete_user_cascade Scenario.team_world
                       Scenario.alice Scenario.admin_token) Ha)
      as [w' [E [_ [_ [R [_ [A _]]]]]]].
    exists w'; auto.
Defined.

(* ================================================================== *)
(** * [startup_event] and [login] *)
(* ================================================================== *)

Lemma admin_of_some (w : World) (email : str) (a : Admin) :
  admin_of w email = Some a ->
  In a (admins_collection w) /\ admin_email a = email.
Proof.
  intros H. apply find_one_some in H as [Hin Hq]. apply eqb_eq in Hq. auto.
Qed.

Lemma admin_of_none (w : World) (email : str) :
  admin_of w email = None
  <-> forall a, In a (admins_collection w) -> admin_email a <> email.
Proof.
  unfold admin_of. rewrite find_one_none.
  split; intros H a Ha; apply eqb_neq, H, Ha.
Qed.

(** ** Claim on [startup_event] *)

(** C8, as stated, fails: with one admin registered under another
    email, start-up still adds the default admin. *)
Lemma C8_counterexample :
  admins_collection Scenario.other_admin_world = [Scenario.other_admin]
  /\ admins_collection
       (snd (startup_event Scenario.toy_hash Scenario.other_admin_world))
     = [Scenario.other_admin;
        mkAdmin admin_email_default (Scenario.toy_hash admin_password_default)]
  /\ snd (startup_event Scenario.toy_hash Scenario.other_admin_world)
     <> Scenario.other_admin_world.
Proof.
  split; [reflexivity|]. split; [reflexivity|].
  intros H. apply (f_equal admins_collection) in H.
  vm_compute in H. discriminate H.
Qed.

(** C8 (amended): start-up never fails.  It adds the default admin,
    with the fixed email and the hash of the fixed password, at the end
    of the admin store exactly when no admin is registered under the
    fixed email (in particular when the store is empty), and touches
    nothing else; when an admin is registered under the fixed email,
    the world is left unchanged. *)
Theorem C8_startup_seeds_by_email :
  forall (pwd_hash : str -> str) (w : World),
    fst (startup_event pwd_hash w) = Ok tt
    /\ ((forall a, In a (admins_collection w) ->
                   admin_email a <> admin_email_default) ->
        snd (startup_event pwd_hash w)
        = set_admins
            (fun admins =>
               admins ++ [mkAdmin admin_email_default
                                  (pwd_hash admin_password_default)])
            w)
    /\ ((exists a, In a (admins_collection w)
                   /\ admin_email a = admin_email_default) ->
        snd (startup_event pwd_hash w) = w)
    /\ (admins_collection w = [] ->
        admins_collection (snd (startup_event pwd_hash w))
        = [mkAdmin admin_email_default (pwd_hash admin_password_default)]).
Proof.
  intros pwd_hash w. unfold startup_event. run.
  fold (admin_of w admin_email_default).
  destruct (admin_of w admin_email_default) as [a|] eqn:E; simpl.
  - split; [reflexivity|]. split; [|split; [reflexivity|]].
    + intros H. apply admin_of_some in E as [Hin He].
      destruct (H a Hin He).
    + intros H. apply admin_of_some in E as [Hin _].
      rewrite H in Hin. destruct Hin.
  - split; [reflexivity|]. split; [reflexivity|]. split.
    + intros [a [Hin He]]. rewrite admin_of_none in E.
      destruct (E a Hin He).
    + intros ->. reflexivity.
Qed.

Lemma C8_startup_seeds_by_email_witness :
  (forall a, In a (admins_collection Scenario.empty_world) ->
             admin_email a <> admin_email_default)
  /\ snd (startup_event Scenario.toy_hash Scenario.empty_world)
     = set_admins
         (fun admins =>
            admins ++ [mkAdmin admin_email_default
                               (Scenario.toy_hash admin_password_default)])
         Scenario.empty_world
  /\ snd (startup_event Scenario.toy_hash Scenario.default_admin_world)
     = Scenario.default_admin_world.
Proof.
  assert (H : forall a, In a (admins_collection Scenario.empty_world) ->
                        admin_email a <> admin_email_default)
    by (intros a []).
  split; [exact H|]. split.
  - exact (proj1 (proj2 (C8_startup_seeds_by_email Scenario.toy_hash
                           Scenario.empty_world)) H).
  - apply (proj1 (proj2 (proj2 (C8_startup_seeds_by_email Scenario.toy_hash
                                  Scenario.default_admin_world)))).
    eexists; split; [left; reflexivity | reflexivity].
Defined.

(** ** Claim on [login] *)

Lemma verify_password_true (pwd_verify : str -> str -> option bool)
      (plain hashed : str) :
  verify_password pwd_verify plain hashed = true
  <-> pwd_verify plain hashed = Some true.
Proof.
  unfold verify_password.
  destruct (pwd_verify plain hashed) as [[|]|]; split; congruence.
Qed.

Lemma login_run (pwd_verify : str -> str -> option bool) (w : World)
      (email password : str) :
  login pwd_verify email password w
  = match admin_of w email with
    | Some a =>
        if verify_password pwd_verify password (admin_password a)
        then (Ok email, w)
        else (Raise (http 401 "Invalid email or password"), w)
    | None => (Raise (http 401 "Invalid email or password"), w)
    end.
Proof.
  unfold login, authenticate_admin. run. fold (admin_of w email).
  destruct (admin_of w email) as [a|]; simpl; auto.
  destruct (verify_password _ _ _); reflexivity.
Qed.

(** C9: [login] changes nothing and either returns the email as the
    token or fails with [Unauthorized] (HTTP 401).  It fails exactly
    when no admin is registered under the email or the verification of
    the password against the admin's hash does not return true, which
    covers the case where the verification primitive raises: that case
    too ends in [Unauthorized] and in no other exception.  On success
    the token is the email of the admin whose password was verified. *)
Theorem C9_login_unauthorized :
  forall (pwd_verify : str -> str -> option bool) (w : World)
         (email password : str),
    snd (login pwd_verify email password w) = w
    /\ (fst (login pwd_verify email password w) = Ok email
        \/ fst (login pwd_verify email password w)
           = Raise (http 401 "Invalid email or password"))
    /\ ((exists e, fst (login pwd_verify email password w) = Raise e
                   /\ Unauthorized e /\ http_status e = 401%Z)
        <-> (admin_of w email = None
             \/ exists a, admin_of w email = Some a
                          /\ pwd_verify password (admin_password a)
                             <> Some true))
    /\ (forall a, admin_of w email = Some a ->
                  pwd_verify password (admin_password a) = None ->
                  fst (login pwd_verify email password w)
                  = Raise (http 401 "Invalid email or password"))
    /\ (forall token,
          fst (login pwd_verify email password w) = Ok token ->
          exists a, In a (admins_collection w)
                    /\ admin_of w email = Some a
                    /\ token = admin_email a
                    /\ pwd_verify password (admin_password a) = Some true).
Proof.
  intros pwd_verify w email password. rewrite login_run.
  destruct (admin_of w email) as [a|] eqn:E; simpl.
  - destruct (verify_password pwd_verify password (admin_password a)) eqn:V;
      simpl.
    + apply verify_password_true in V.
      split; [reflexivity|]. split; [left; reflexivity|]. split; [split|].
      * intros [e [H _]]. discriminate H.
      * intros [H|[a' [H N]]]; [discriminate H|].
        injection H as <-. contradiction.
      * split.
        -- intros a' H N. injection H as <-. congruence.
        -- intros token H. injection H as <-.
           destruct (admin_of_some _ _ _ E) as [Hin He].
           exists a. auto.
    + assert (N : pwd_verify password (admin_password a) <> Some true).
      { intros H. apply verify_password_true in H. congruence. }
      split; [reflexivity|]. split; [right; reflexivity|]. split; [split|].
      * intros _. right. exists a. auto.
      * intros _. eexists. split; [reflexivity|]. split; reflexivity.
      * split; [reflexivity | discriminate].
  - split; [reflexivity|]. split; [right; reflexivity|]. split; [split|].
    + intros _. left; reflexivity.
    + intros _. eexists. split; [reflexivity|]. split; reflexivity.
    + split; [discriminate | discriminate].
Qed.

Lemma C9_login_unauthorized_witness :
  admin_of Scenario.default_admin_world admin_email_default
  = Some (mkAdmin admin_email_default (lit "$2b$12$seed"))
  /\ fst (login Scenario.toy_verify admin_email_default (lit "Admin@1234")
                Scenario.default_admin_world)
     = Ok admin_email_default
  /\ (exists e,
        fst (login Scenario.toy_verify admin_email_default (lit "guess")
                   Scenario.default_admin_world) = Raise e
        /\ Unauthorized e /\ http_status e = 401%Z).
Proof.
  split; [reflexivity|]. split; [reflexivity|].
  apply (proj2 (proj1 (proj2 (proj2 (C9_login_unauthorized
           Scenario.toy_verify Scenario.default_admin_world
           admin_email_default (lit "guess")))))).
  right. eexists. split; [reflexivity|]. vm_compute. discriminate.
Defined.

(* ================================================================== *)
(** * [download_report] *)
(* ================================================================== *)

Lemma set_nth_app {A : Type} (done rest : list A) (x y : A) :
  Docx.set_nth (done ++ x :: rest) (List.length done) y
  = Some (done ++ y :: rest).
Proof.
  induction done as [|d done IH]; simpl; auto. rewrite IH. reflexivity.
Qed.

Lemma nth_error_length_app {A : Type} (done rest : list A) (x : A) :
  nth_error (done ++ x :: rest) (List.length done) = Some x.
Proof. induction done; simpl; auto. Qed.

(** Writing a cell of the row that follows [done]. *)
Lemma set_cell_app (done rest : list (list str)) (row : list str)
      (j : nat) (v : str) :
  Docx.set_cell (done ++ row :: rest) (List.length done) j v
  = match Docx.set_nth row j v with
    | Some row' => Some (done ++ row' :: rest)
    | None => None
    end.
Proof.
  unfold Docx.set_cell. rewrite nth_error_length_app.
  destruct (Docx.set_nth row j v); auto. apply set_nth_app.
Qed.

Section Build.

Variable accepts : str -> bool.

(** Writing a cell of the row that follows [done]: the text is
    written when python-docx takes it. *)
Lemma write_cell_app (done rest : list (list str)) (row : list str)
      (j : nat) (v : str) :
  write_cell accepts (done ++ row :: rest) (List.length done) j v
  = match Docx.set_nth row j v with
    | Some row' => if accepts v then Some (done ++ row' :: rest) else None
    | None => None
    end.
Proof.
  unfold write_cell, and_then, accept. rewrite set_cell_app.
  destruct (Docx.set_nth row j v); auto. destruct (accepts v); auto.
Qed.

(** One pass of the loop over the reports turns the empty row that
    follows [done] into the row of the report, when its five texts
    are taken. *)
Lemma fill_row_app (done rest : list (list str)) (report : Report) :
  fill_row accepts (done ++ repeat [] 5 :: rest) (List.length done) report
  = if forallb accepts (export_row (List.length done, report))
    then Some (done ++ export_row (List.length done, report) :: rest)
    else None.
Proof.
  unfold fill_row, and_then, export_row. simpl forallb.
  rewrite write_cell_app; simpl.
  destruct (accepts (Py.str_of_int (List.length done))); [|reflexivity].
  rewrite write_cell_app; simpl.
  destruct (accepts (report_name report)); [|reflexivity].
  rewrite write_cell_app; simpl.
  destruct (accepts (report_yesterday report)); [|reflexivity].
  rewrite write_cell_app; simpl.
  destruct (accepts (report_today report)); [|reflexivity].
  rewrite write_cell_app; simpl.
  destruct (accepts (Py.or_ (report_blockers report) (lit "None")));
    reflexivity.
Qed.

Lemma fill_rows_app (reports : list Report) :
  forall done : list (list str),
    fold_left (fun t '(i, report) =>
                 and_then t (fun t => fill_row accepts t i report))
              (enumerate (List.length done) reports)
              (Some (done ++ repeat (repeat [] 5) (List.length reports)))
    = if forallb accepts
           (List.concat
              (map export_row (enumerate (List.length done) reports)))
      then Some (done
                 ++ map export_row (enumerate (List.length done) reports))
      else None.
Proof.
  induction reports as [|r l IH]; intros done;
    cbn [List.length enumerate fold_left map and_then List.concat].
  - rewrite !app_nil_r. reflexivity.
  - change (repeat (repeat [] 5) (S (List.length l)))
      with (repeat ([] : str) 5 :: repeat (repeat [] 5) (List.length l)).
    rewrite fill_row_app, forallb_app.
    destruct (forallb accepts (export_row (List.length done, r))).
    + replace (done ++ export_row (List.length done, r)
                    :: repeat (repeat [] 5) (List.length l))
        with ((done ++ [export_row (List.length done, r)])
                ++ repeat (repeat [] 5) (List.length l))
        by (rewrite <- app_assoc; reflexivity).
      replace (S (List.length done))
        with (List.length (done ++ [export_row (List.length done, r)]))
        by (rewrite length_app; simpl; lia).
      rewrite IH, <- app_assoc. reflexivity.
    + simpl. generalize (enumerate (S (List.length done)) l).
      intros rows. induction rows as [|[i x] rows IHrows]; simpl; auto.
Qed.

Lemma fill_headers_new (rest : list (list str)) :
  fill_headers accepts (repeat [] 5 :: rest)
  = if forallb accepts table_headers
    then Some (table_headers :: rest)
    else None.
Proof.
  unfold fill_headers, table_headers, write_cell, accept, and_then.
  simpl.
  destruct (accepts (lit "S.No")); [|reflexivity].
  destruct (accepts (lit "Team Member")); [|reflexivity].
  destruct (accepts (lit "Yesterday's Tasks")); [|reflexivity].
  destruct (accepts (lit "Today's Priorities")); [|reflexivity].
  destruct (accepts (lit "Blockers")); reflexivity.
Qed.

(** The table the handler fills cell by cell is [export_table] when
    every text is taken; no cell access is out of range. *)
Lemma fill_table (reports : list Report) :
  and_then (fill_headers accepts
              (Docx.new_table (List.length reports + 1) 5))
           (fun t => fill_rows accepts t reports)
  = if forallb accepts
         (table_headers
          ++ List.concat (map export_row (enumerate 1 reports)))
    then Some (export_table reports)
    else None.
Proof.
  unfold Docx.new_table. rewrite Nat.add_1_r. simpl repeat.
  rewrite fill_headers_new, forallb_app.
  destruct (forallb accepts table_headers); [|reflexivity].
  unfold and_then, fill_rows.
  exact (fill_rows_app reports [table_headers]).
Qed.

Lemma forallb_export_texts (date : str) (reports : list Report)
      (action_items : option ActionItems) :
  forallb accepts (export_texts date reports action_items)
  = accepts (lit "MOM Consolidated Report - " ++ date)
    && (accepts (lit "Daily Progress Reports")
        && (forallb accepts
              (table_headers
               ++ List.concat (map export_row (enumerate 1 reports)))
            && forallb accepts
                 match action_items with
                 | Some a =>
                     if Py.truthy (ai_items a)
                     then [lit "Action Items"; ai_items a]
                     else []
                 | None => []
                 end)).
Proof.
  unfold export_texts.
  rewrite (app_assoc table_headers), !forallb_app.
  cbn [forallb]. rewrite andb_true_r, <- !andb_assoc. reflexivity.
Qed.

(** The document is built exactly when python-docx takes every text
    of the export, and it is then [export_document]. *)
Lemma build_document_spec (date : str) (reports : list Report)
      (action_items : option ActionItems) :
  build_document accepts date reports action_items
  = if forallb accepts (export_texts date reports action_items)
    then Some (export_document date reports action_items)
    else None.
Proof.
  rewrite forallb_export_texts.
  unfold build_document, export_document, accept.
  destruct (accepts (lit "MOM Consolidated Report - " ++ date));
    [|reflexivity].
  destruct (accepts (lit "Daily Progress Reports")); [|reflexivity].
  cbn [andb and_then].
  pose proof (fill_table reports) as T.
  destruct (fill_headers accepts
              (Docx.new_table (List.length reports + 1) 5)) as [t|];
    cbn [and_then] in T |- *.
  - rewrite T.
    destruct (forallb accepts (table_headers ++ _)); [|reflexivity].
    cbn [andb and_then].
    unfold add_action_section, action_section, accept, and_then.
    destruct action_items as [a|]; [|reflexivity].
    destruct (Py.truthy (ai_items a)); [|reflexivity]. cbn [forallb].
    destruct (accepts (lit "Action Items")); [|reflexivity].
    destruct (accepts (ai_items a)); reflexivity.
  - destruct (forallb accepts (table_headers ++ _));
      [discriminate T | reflexivity].
Qed.

End Build.

(** What [download_report] does, case by case. *)
Lemma download_report_spec (accepts : str -> bool)
      (save_ok : nat -> str -> bool) (w : World) (date token : str) :
  download_report accepts save_ok date token w
  = match reports_of w date with
    | [] => (Raise (http 404 "No reports found for this date"), w)
    | _ :: _ =>
        if forallb accepts
             (export_texts date (reports_of w date) (cached w date))
        then if save_ok (List.length (saved_files w)) (export_path date)
             then (Ok (mkFileResponse (export_path date) (export_path date)
                                      docx_media_type),
                   set_saved_files
                     (fun fs =>
                        fs ++ [(export_path date,
                                export_document date (reports_of w date)
                                                (cached w date))])
                     w)
             else (Raise OtherExc, w)
        else (Raise OtherExc, w)
    end.
Proof.
  unfold download_report, bind, gets, raise_if, raise, ret.
  fold (reports_of w date). fold (cached w date).
  destruct (reports_of w date) as [|r l] eqn:E; [reflexivity|].
  cbn [is_nil]. rewrite build_document_spec.
  destruct (forallb accepts _); [|reflexivity].
  unfold doc_save. fold (export_path date).
  destruct (save_ok _ _); reflexivity.
Qed.

Lemma download_report_run (accepts : str -> bool)
      (save_ok : nat -> str -> bool) (w : World) (date token : str) :
  reports_of w date <> [] ->
  (forall text,
     In text (export_texts date (reports_of w date) (cached w date)) ->
     accepts text = true) ->
  save_ok (List.length (saved_files w)) (export_path date) = true ->
  download_report accepts save_ok date token w
  = (Ok (mkFileResponse (export_path date) (export_path date)
                        docx_media_type),
     set_saved_files
       (fun fs => fs ++ [(export_path date,
                          export_document date (reports_of w date)
                                          (cached w date))])
       w).
Proof.
  intros Hr Ha Hs. rewrite download_report_spec.
  destruct (reports_of w date) as [|r l] eqn:E; [congruence|].
  apply forallb_forall in Ha. rewrite Ha, Hs. reflexivity.
Qed.

Lemma enumerate_nth {A : Type} (l : list A) : forall (k i : nat) (x : A),
  nth_error l i = Some x -> nth_error (enumerate k l) i = Some (k + i, x).
Proof.
  induction l as [|y l IH]; intros k [|i] x; simpl; try discriminate.
  - intros H; injection H as <-. rewrite Nat.add_0_r. reflexivity.
  - intros H. rewrite (IH (S k) i x H). f_equal. f_equal. lia.
Qed.

Lemma or_none_iff (blockers : str) :
  Py.or_ blockers (lit "None") = lit "None"
  <-> blockers = [] \/ blockers = lit "None".
Proof.
  unfold Py.or_. destruct blockers as [|c r]; simpl.
  - split; auto.
  - split; [auto | intros [H|H]; [discriminate H | exact H]].
Qed.

Lemma action_section_heading (a : option ActionItems) :
  In (Heading (lit "Action Items") 1) (action_section a)
  <-> exists items, a = Some items /\ ai_items items <> [].
Proof.
  unfold action_section. destruct a as [items|]; simpl.
  - destruct (Py.truthy (ai_items items)) eqn:T; simpl.
    + apply truthy_true in T. split; [exists items; auto | auto].
    + apply truthy_false in T. split; [intros [] |].
      intros [i [H N]]. injection H as <-. contradiction.
  - split; [intros [] | intros [i [H _]]; discriminate H].
Qed.

(** ** Claim on [download_report] *)

(** C7, as stated, fails in one direction: the second report of the
    date has the text [None] as its blockers, so its Blockers cell
    holds [None] although the blockers field is not empty.  (All the
    texts are plain and the file is written.) *)
Lemma C7_counterexample :
  nth_error (reports_of Scenario.team_world Scenario.day) 1
  = Some Scenario.bob_report
  /\ report_blockers Scenario.bob_report <> []
  /\ exists doc,
       saved_files (snd (download_report Scenario.plain_text
                           Scenario.disk_ok Scenario.day
                           Scenario.admin_token Scenario.team_world))
       = [(export_path Scenario.day, doc)]
       /\ option_map blockers_cell (nth_error (data_rows doc) 1)
          = Some (lit "None").
Proof.
  split; [reflexivity|]. split; [discriminate|].
  eexists. split; reflexivity.
Qed.

(** C7 (amended): for a date with at least one report, when
    python-docx takes every text of the export and the file can be
    written, [download_report] succeeds and writes one document, named
    after the date.  Its table has the header row and then one row per
    report in listing order: the number of the report counted from 1,
    its name, yesterday, today, and in the Blockers cell the blockers
    text, or the text [None] when the blockers field is empty; so the
    cell reads [None] exactly when the field is empty or is itself the
    text [None].  The [Action Items] heading appears if and only if
    the cache lookup for the date finds a record whose text is not
    empty, and then it is followed by one paragraph with that text;
    otherwise the document ends with the table. *)
Theorem C7_export_document :
  forall (docx_accepts : str -> bool) (doc_save_ok : nat -> str -> bool)
         (w : World) (date token : str),
    reports_of w date <> [] ->
    (forall text,
       In text (export_texts date (reports_of w date) (cached w date)) ->
       docx_accepts text = true) ->
    doc_save_ok (List.length (saved_files w)) (export_path date) = true ->
    exists doc,
      download_report docx_accepts doc_save_ok date token w
      = (Ok (mkFileResponse (export_path date) (export_path date)
                            docx_media_type),
         set_saved_files (fun fs => fs ++ [(export_path date, doc)]) w)
      /\ doc = export_document date (reports_of w date) (cached w date)
      /\ List.length (data_rows doc) = List.length (reports_of w date)
      /\ (forall i r,
            nth_error (reports_of w date) i = Some r ->
            nth_error (data_rows doc) i
            = Some [Py.str_of_int (i + 1); report_name r;
                    report_yesterday r; report_today r;
                    match report_blockers r with
                    | [] => lit "None"
                    | _ :: _ => report_blockers r
                    end]
            /\ (option_map blockers_cell (nth_error (data_rows doc) i)
                = Some (lit "None")
                <-> report_blockers r = []
                    \/ report_blockers r = lit "None"))
      /\ (In (Heading (lit "Action Items") 1) doc
          <-> exists a, cached w date = Some a /\ ai_items a <> [])
      /\ (forall a, cached w date = Some a -> ai_items a <> [] ->
            doc = [Heading (lit "MOM Consolidated Report - " ++ date) 0;
                   Heading (lit "Daily Progress Reports") 1;
                   Table (lit "Table Grid")
                         (export_table (reports_of w date));
                   Heading (lit "Action Items") 1;
                   Paragraph [ai_items a]])
      /\ (~ (exists a, cached w date = Some a /\ ai_items a <> []) ->
            doc = [Heading (lit "MOM Consolidated Report - " ++ date) 0;
                   Heading (lit "Daily Progress Reports") 1;
                   Table (lit "Table Grid")
                         (export_table (reports_of w date))]).
Proof.
  intros docx_accepts doc_save_ok w date token Hr Ha Hs.
  exists (export_document date (reports_of w date) (cached w date)).
  split; [apply download_report_run; assumption|]. split; [reflexivity|].
  assert (D : data_rows (export_document date (reports_of w date)
                                         (cached w date))
              = map export_row (enumerate 1 (reports_of w date))).
  { unfold export_document, data_rows, action_section. simpl.
    destruct (cached w date) as [a|]; [destruct (Py.truthy (ai_items a))|];
      simpl; rewrite app_nil_r; reflexivity. }
  rewrite D. split.
  { rewrite length_map. clear. generalize 1.
    induction (reports_of w date); intros k; simpl; auto. }
  split.
  { intros i r Hi.
    rewrite (map_nth_error export_row i (enumerate 1 (reports_of w date))
               (enumerate_nth _ 1 i r Hi)).
    replace (1 + i) with (i + 1) by lia. unfold export_row.
    assert (O : Py.or_ (report_blockers r) (lit "None")
                = match report_blockers r with
                  | [] => lit "None"
                  | _ :: _ => report_blockers r
                  end)
      by (destruct (report_blockers r); reflexivity).
    split; [rewrite O; reflexivity|].
    simpl option_map. unfold blockers_cell. simpl nth.
    rewrite <- or_none_iff. split; [intros H; injection H; auto|].
    intros ->. reflexivity. }
  split.
  { rewrite <- action_section_heading. unfold export_document.
    rewrite in_app_iff. simpl. split; [|auto].
    intros [[H|[H|[H|[]]]]|H]; auto; discriminate H. }
  split.
  { intros a Hc Hn. unfold export_document, action_section. rewrite Hc.
    apply truthy_true in Hn. rewrite Hn. reflexivity. }
  { intros N. unfold export_document, action_section.
    destruct (cached w date) as [a|]; [|reflexivity].
    destruct (Py.truthy (ai_items a)) eqn:T; [|reflexivity].
    exfalso. apply N. exists a. split; [reflexivity|].
    apply truthy_true, T. }
Qed.

Lemma C7_export_document_witness :
  reports_of Scenario.team_world Scenario.day <> []
  /\ forallb Scenario.plain_text
       (export_texts Scenario.day
          (reports_of Scenario.team_world Scenario.day)
          (cached Scenario.team_world Scenario.day)) = true
  /\ Scenario.disk_ok (List.length (saved_files Scenario.team_world))
                      (export_path Scenario.day) = true
  /\ exists doc,
       download_report Scenario.plain_text Scenario.disk_ok Scenario.day
                       Scenario.admin_token Scenario.team_world
       = (Ok (mkFileResponse (export_path Scenario.day)
                             (export_path Scenario.day) docx_media_type),
          set_saved_files
            (fun fs => fs ++ [(export_path Scenario.day, doc)])
            Scenario.team_world)
       /\ List.length (data_rows doc) = 2
       /\ In (Heading (lit "Action Items") 1) doc.
Proof.
  assert (Hr : reports_of Scenario.team_world Scenario.day <> [])
    by (vm_compute; discriminate).
  assert (Ha : forallb Scenario.plain_text
                 (export_texts Scenario.day
                    (reports_of Scenario.team_world Scenario.day)
                    (cached Scenario.team_world Scenario.day)) = true)
    by reflexivity.
  split; [exact Hr|]. split; [exact Ha|]. split; [reflexivity|].
  destruct (C7_export_document Scenario.plain_text Scenario.disk_ok
              Scenario.team_world Scenario.day Scenario.admin_token Hr
              (proj1 (forallb_forall _ _) Ha) eq_refl)
    as [doc [E [_ [L [_ [A _]]]]]].
  exists doc. split; [exact E|]. split; [exact L|].
  apply A. eexists. split; [reflexivity|]. vm_compute. discriminate.
Defined.

(* ================================================================== *)
(** * Admin-only routes *)
(* ================================================================== *)

(** With the non-empty cookie of a registered admin, a route guarded by
    [Depends(get_current_admin)] runs its handler with that token, so
    the statements above about the handlers hold for the routes. *)
Lemma Depends_authenticated {A : Type} (request : Request)
      (handler : str -> M A) (w : World) (token : str) (a : Admin) :
  cookies_get (lit "access_token") (cookies request) = Some token ->
  token <> [] ->
  admin_of w token = Some a ->
  Depends request handler w = handler token w.
Proof.
  intros Hc Hn Ha. unfold Depends, get_current_admin. rewrite Hc. run.
  apply truthy_true in Hn. rewrite Hn. simpl. fold (admin_of w token). rewrite Ha. reflexivity.
Qed.

(** Without the cookie the handler does not run. *)
Lemma Depends_no_cookie {A : Type} (request : Request)
      (handler : str -> M A) (w : World) :
  cookies_get (lit "access_token") (cookies request) = None ->
  exists e, Depends request handler w = (Raise e, w)
            /\ http_status e = 401%Z.
Proof.
  intros Hc. unfold Depends, get_current_admin. rewrite Hc. run.
  eexists; split; reflexivity.
Qed.

(* ================================================================== *)
(** * Further properties: authentication *)
(* ================================================================== *)

Lemma admin_of_is_some (w : World) (token : str) :
  is_some (admin_of w token) = true
  <-> exists a, In a (admins_collection w) /\ admin_email a = token.
Proof.
  unfold admin_of. rewrite find_one_is_some.
  split; intros [a [Hin H]]; exists a; split; auto; apply eqb_eq, H.
Qed.

Lemma get_current_admin_run (request : Request) (w : World) :
  get_current_admin request w
  = match cookies_get (lit "access_token") (cookies request) with
    | None =>
        (Raise (HTTPExc (mkHTTPException 401 (lit "Not authenticated")
                                         auth_headers)), w)
    | Some token =>
        if Py.truthy token
        then if is_some (admin_of w token)
             then (Ok token, w)
             else (Raise (HTTPExc (mkHTTPException 401
                            (lit "Invalid authentication credentials")
                            auth_headers)), w)
        else (Raise (HTTPExc (mkHTTPException 401 (lit "Not authenticated")
                                              auth_headers)), w)
    end.
Proof.
  unfold get_current_admin.
  destruct (cookies_get _ _) as [token|]; [|reflexivity]. run.
  destruct (Py.truthy token); simpl; [|reflexivity].
  fold (admin_of w token). destruct (admin_of w token); reflexivity.
Qed.

(** X1: [get_current_admin] reads and never writes.  It returns the
    value of the [access_token] cookie exactly when the cookie is
    there, is not the empty string and is the email of a registered
    admin; in every other case it raises an [HTTPException] with
    status 401 that carries the [Location: /login] hint. *)
Theorem X1_get_current_admin_gate :
  forall (request : Request) (w : World),
    snd (get_current_admin request w) = w
    /\ (forall token,
          fst (get_current_admin request w) = Ok token
          <-> cookies_get (lit "access_token") (cookies request) = Some token
              /\ token <> []
              /\ exists a, In a (admins_collection w) /\ admin_email a = token)
    /\ ((exists token, fst (get_current_admin request w) = Ok token)
        \/ exists e, fst (get_current_admin request w) = Raise (HTTPExc e)
                     /\ status_code e = 401%Z
                     /\ In (lit "Location", lit "/login") (headers e)).
Proof.
  intros request w. rewrite get_current_admin_run.
  destruct (cookies_get _ _) as [tok|]; simpl.
  - destruct (Py.truthy tok) eqn:T; simpl.
    + destruct (is_some (admin_of w tok)) eqn:S; simpl.
      * split; [reflexivity|]. split; [|left; exists tok; reflexivity].
        intros token. split.
        -- intros H; injection H as <-.
           split; [reflexivity|]. split; [apply truthy_true, T|].
           apply admin_of_is_some, S.
        -- intros [H _]. injection H as <-. reflexivity.
      * split; [reflexivity|]. split.
        -- intros token. split; [discriminate|].
           intros [H [_ E]]. injection H as <-.
           apply admin_of_is_some in E. congruence.
        -- right. eexists. split; [reflexivity|].
           split; [reflexivity | right; left; reflexivity].
    + split; [reflexivity|]. split.
      * intros token. split; [discriminate|].
        intros [H [N _]]. injection H as <-.
        apply truthy_true in N. congruence.
      * right. eexists. split; [reflexivity|].
        split; [reflexivity | right; left; reflexivity].
  - split; [reflexivity|]. split.
    + intros token. split; [discriminate | intros [H _]; discriminate H].
    + right. eexists. split; [reflexivity|].
      split; [reflexivity | right; left; reflexivity].
Qed.

(** X2: a route declared with [Depends(get_current_admin)] runs its
    handler, on the value of the cookie, when the cookie is the
    non-empty email of a registered admin; otherwise the handler does
    not run: the route raises status 401 and the world is unchanged. *)
Theorem X2_admin_routes_guarded :
  forall (A : Type) (request : Request) (handler : str -> M A) (w : World),
    (forall token,
       cookies_get (lit "access_token") (cookies request) = Some token ->
       token <> [] ->
       (exists a, In a (admins_collection w) /\ admin_email a = token) ->
       Depends request handler w = handler token w)
    /\ (~ (exists token,
             cookies_get (lit "access_token") (cookies request) = Some token
             /\ token <> []
             /\ exists a, In a (admins_collection w) /\ admin_email a = token) ->
        exists e,
          Depends request handler w = (Raise (HTTPExc e), w)
          /\ status_code e = 401%Z).
Proof.
  intros A request handler w.
  unfold Depends, bind. rewrite get_current_admin_run. split.
  - intros token Hc Hn Ha. rewrite Hc.
    apply truthy_true in Hn. apply admin_of_is_some in Ha.
    rewrite Hn, Ha. reflexivity.
  - intros N. destruct (cookies_get _ _) as [tok|].
    + destruct (Py.truthy tok) eqn:T.
      * destruct (is_some (admin_of w tok)) eqn:S.
        -- exfalso. apply N. exists tok. split; [reflexivity|].
           split; [apply truthy_true, T | apply admin_of_is_some, S].
        -- eexists; split; reflexivity.
      * eexists; split; reflexivity.
    + eexists; split; reflexivity.
Qed.

(** X3: the token a successful [login] returns, when it is not the
    empty string, is accepted by [get_current_admin] as the cookie of
    a later request. *)
Theorem X3_login_token_accepted :
  forall (pwd_verify : str -> str -> option bool) (w : World)
         (email password token : str),
    fst (login pwd_verify email password w) = Ok token ->
    token <> [] ->
    get_current_admin (with_token token)
                      (snd (login pwd_verify email password w))
    = (Ok token, w).
Proof.
  intros pwd_verify w email password token. rewrite login_run.
  destruct (admin_of w email) as [a|] eqn:E; [|discriminate].
  destruct (verify_password _ _ _); [|discriminate].
  simpl. intros H Hn. injection H as <-.
  rewrite get_current_admin_run. simpl.
  apply truthy_true in Hn. rewrite Hn, E. reflexivity.
Qed.

Lemma X3_login_token_accepted_witness :
  fst (login Scenario.toy_verify admin_email_default (lit "Admin@1234")
             Scenario.default_admin_world) = Ok admin_email_default
  /\ get_current_admin (with_token admin_email_default)
       (snd (login Scenario.toy_verify admin_email_default (lit "Admin@1234")
                   Scenario.default_admin_world))
     = (Ok admin_email_default, Scenario.default_admin_world).
Proof.
  split; [reflexivity|].
  apply X3_login_token_accepted; [reflexivity | discriminate].
Defined.

Lemma find_one_app_some {A : Type} (q : A -> bool) (c extra : list A) (d : A) :
  Coll.find_one q c = Some d -> Coll.find_one q (c ++ extra) = Some d.
Proof.
  unfold Coll.find_one. induction c as [|x r IH]; simpl; [discriminate|].
  destruct (q x); auto.
Qed.

(** X4: after start-up an admin is registered under the fixed email,
    whatever the admin store held before; the store keeps its earlier
    records in place and gains at most one; users, reports and action
    items are untouched; and running start-up again changes
    nothing. *)
Theorem X4_startup_idempotent :
  forall (pwd_hash : str -> str) (w : World),
    (exists a, admin_of (snd (startup_event pwd_hash w)) admin_email_default
               = Some a)
    /\ (exists added,
          admins_collection (snd (startup_event pwd_hash w))
          = admins_collection w ++ added
          /\ List.length added <= 1)
    /\ users_collection (snd (startup_event pwd_hash w)) = users_collection w
    /\ reports_collection (snd (startup_event pwd_hash w))
       = reports_collection w
    /\ action_items_collection (snd (startup_event pwd_hash w))
       = action_items_collection w
    /\ snd (startup_event pwd_hash (snd (startup_event pwd_hash w)))
       = snd (startup_event pwd_hash w).
Proof.
  intros pwd_hash w.
  assert (R : forall w', startup_event pwd_hash w'
              = if negb (is_some (admin_of w' admin_email_default))
                then (Ok tt,
                      set_admins
                        (Coll.insert_one
                           (mkAdmin admin_email_default
                                    (pwd_hash admin_password_default))) w')
                else (Ok tt, w')).
  { intros w'. unfold startup_event. run. fold (admin_of w' admin_email_default).
    destruct (admin_of w' admin_email_default); reflexivity. }
  rewrite (R w).
  destruct (admin_of w admin_email_default) as [a|] eqn:E; simpl.
  - split; [exists a; exact E|].
    split; [exists []; rewrite app_nil_r; auto|].
    repeat (split; [reflexivity|]). rewrite R, E. reflexivity.
  - assert (E' : admin_of
                   (set_admins
                      (Coll.insert_one
                         (mkAdmin admin_email_default
                                  (pwd_hash admin_password_default))) w)
                   admin_email_default
                 = Some (mkAdmin admin_email_default
                                 (pwd_hash admin_password_default))).
    { unfold admin_of; simpl. apply find_one_snoc_none; [exact E|].
      apply eqb_refl. }
    split; [eexists; exact E'|].
    split; [eexists; split; [reflexivity | simpl; lia]|].
    repeat (split; [reflexivity|]). rewrite R, E'. reflexivity.
Qed.

(** X5: when no admin is registered under the fixed email and the
    hashing primitive verifies what it hashed, the fixed credentials
    log in right after start-up, and the token they give is accepted. *)
Theorem X5_startup_then_login :
  forall (pwd_verify : str -> str -> option bool) (pwd_hash : str -> str)
         (w : World),
    admin_of w admin_email_default = None ->
    pwd_verify admin_password_default (pwd_hash admin_password_default)
    = Some true ->
    login pwd_verify admin_email_default admin_password_default
          (snd (startup_event pwd_hash w))
    = (Ok admin_email_default, snd (startup_event pwd_hash w))
    /\ get_current_admin (with_token admin_email_default)
                         (snd (startup_event pwd_hash w))
       = (Ok admin_email_default, snd (startup_event pwd_hash w)).
Proof.
  intros pwd_verify pwd_hash w E V.
  assert (S : snd (startup_event pwd_hash w)
              = set_admins
                  (Coll.insert_one
                     (mkAdmin admin_email_default
                              (pwd_hash admin_password_default))) w).
  { unfold startup_event. run. fold (admin_of w admin_email_default).
    rewrite E. reflexivity. }
  assert (E' : admin_of (snd (startup_event pwd_hash w)) admin_email_default
               = Some (mkAdmin admin_email_default
                               (pwd_hash admin_password_default))).
  { rewrite S. unfold admin_of; simpl.
    apply find_one_snoc_none; [exact E | apply eqb_refl]. }
  split.
  - rewrite login_run, E'. simpl.
    apply verify_password_true in V. rewrite V. reflexivity.
  - rewrite get_current_admin_run. simpl. rewrite E'. reflexivity.
Qed.

Lemma X5_startup_then_login_witness :
  admin_of Scenario.other_admin_world admin_email_default = None
  /\ Scenario.toy_verify admin_password_default
       (Scenario.toy_hash admin_password_default) = Some true
  /\ login Scenario.toy_verify admin_email_default admin_password_default
       (snd (startup_event Scenario.toy_hash Scenario.other_admin_world))
     = (Ok admin_email_default,
        snd (startup_event Scenario.toy_hash Scenario.other_admin_world)).
Proof.
  split; [reflexivity|]. split; [reflexivity|].
  apply (proj1 (X5_startup_then_login Scenario.toy_verify Scenario.toy_hash
                  Scenario.other_admin_world eq_refl eq_refl)).
Defined.

(* ================================================================== *)
(** * Further properties: the user directory *)
(* ================================================================== *)

Lemma delete_one_snoc {A : Type} (q : A -> bool) (c : list A) (d : A) :
  (forall x, In x c -> q x = false) -> q d = true ->
  Coll.delete_one q (c ++ [d]) = c.
Proof.
  induction c as [|x r IH]; simpl; intros H Hd.
  - rewrite Hd. reflexivity.
  - rewrite (H x (or_introl eq_refl)). f_equal. apply IH; auto.
Qed.

Lemma delete_many_none {A : Type} (q : A -> bool) (c : list A) :
  (forall x, In x c -> q x = false) -> Coll.delete_many q c = c.
Proof.
  unfold Coll.delete_many. induction c as [|x r IH]; simpl; intros H; auto.
  rewrite (H x (or_introl eq_refl)). simpl. f_equal. apply IH; auto.
Qed.

Lemma delete_one_NoDup {A B : Type} (f : A -> B) (q : A -> bool) (c : list A) :
  NoDup (map f c) -> NoDup (map f (Coll.delete_one q c)).
Proof.
  induction c as [|x r IH]; simpl; intros H; auto.
  inversion H as [|? ? Hx Hr]; subst.
  destruct (q x); auto. simpl. constructor; auto.
  intros Hin. apply Hx. clear - Hin.
  induction r as [|y r IH]; simpl in *; auto.
  destruct (q y); simpl in *; tauto.
Qed.

Lemma filter_NoDup {A B : Type} (f : A -> B) (p : A -> bool) (c : list A) :
  NoDup (map f c) -> NoDup (map f (filter p c)).
Proof.
  induction c as [|x r IH]; simpl; intros H; auto.
  inversion H as [|? ? Hx Hr]; subst.
  destruct (p x); auto. simpl. constructor; auto.
  intros Hin. apply Hx. apply in_map_iff in Hin as [y [E Hy]].
  apply filter_In in Hy as [Hy _]. rewrite <- E. apply in_map, Hy.
Qed.

Lemma add_user_run (w : World) (name token : str) :
  add_user name token w
  = if is_some (Coll.find_one (fun u => Py.eqb (user_name u) name)
                              (users_collection w))
    then (Raise (http 400 "User already exists"), w)
    else (Ok (lit "User added successfully"),
          set_users (Coll.insert_one (mkUser name)) w).
Proof.
  unfold add_user. run. destruct (is_some _); reflexivity.
Qed.

(** X6: [add_user] fails with [Conflict] (HTTP 400) and changes
    nothing when the name is in the directory; otherwise it appends
    the user, after which [get_users] lists the old names followed by
    the new one.  Either way the name is in the directory afterwards,
    and a directory with distinct names keeps distinct names. *)
Theorem X6_add_user :
  forall (w : World) (name token token' : str),
    (user_in w name ->
     exists e, add_user name token w = (Raise e, w)
               /\ Conflict e /\ http_status e = 400%Z)
    /\ (~ user_in w name ->
        add_user name token w
        = (Ok (lit "User added successfully"),
           set_users (fun users => users ++ [mkUser name]) w)
        /\ fst (get_users token' (snd (add_user name token w)))
           = Ok (map user_name (users_collection w) ++ [name]))
    /\ user_in (snd (add_user name token w)) name
    /\ (UsersUnique w -> UsersUnique (snd (add_user name token w))).
Proof.
  intros w name token token'. rewrite add_user_run.
  destruct (is_some _) eqn:E.
  - assert (H : user_in w name) by (apply existing_user_iff, E).
    split; [|split; [|split]].
    + intros _. eexists. split; [reflexivity|].
      split; [right; reflexivity | reflexivity].
    + intros N. contradiction.
    + exact H.
    + auto.
  - assert (H : ~ user_in w name).
    { rewrite <- existing_user_iff, E. discriminate. }
    split; [|split; [|split]].
    + intros H'. contradiction.
    + intros _. split; [reflexivity|].
      unfold get_users. run. unfold Coll.insert_one.
      rewrite map_app. reflexivity.
    + exists (mkUser name). simpl. unfold Coll.insert_one.
      rewrite in_app_iff. simpl. auto.
    + intros U. generalize (add_user_unique w name token U).
      rewrite add_user_run, E. auto.
Qed.

(** X7: adding a user that is not in the directory and deleting it
    again gives back the world as it was, provided no report is stored
    under that name. *)
Theorem X7_add_then_delete :
  forall (w : World) (name token token' : str),
    ~ user_in w name ->
    (forall r, In r (reports_collection w) -> report_name r <> name) ->
    delete_user name token' (snd (add_user name token w))
    = (Ok (lit "User deleted successfully"), w).
Proof.
  intros w name token token' Hn Hr.
  assert (E : snd (add_user name token w)
              = set_users (Coll.insert_one (mkUser name)) w).
  { rewrite add_user_run. rewrite <- existing_user_iff in Hn.
    destruct (is_some _); [exfalso; auto | reflexivity]. }
  rewrite E. rewrite delete_user_present.
  - f_equal. destruct w as [us rs ais ads calls files].
    unfold set_reports, set_users; simpl in *. f_equal.
    + unfold Coll.insert_one. apply delete_one_snoc.
      * intros x Hx. apply eqb_neq. intros Hx'. apply Hn.
        exists x. auto.
      * apply eqb_refl.
    + apply delete_many_none. intros x Hx. apply eqb_neq, Hr, Hx.
  - exists (mkUser name). simpl. unfold Coll.insert_one.
    rewrite in_app_iff. simpl. auto.
Qed.

Lemma X7_add_then_delete_witness :
  ~ user_in Scenario.alice_reported Scenario.bob
  /\ delete_user Scenario.bob Scenario.admin_token
       (snd (add_user Scenario.bob Scenario.admin_token
                      Scenario.alice_reported))
     = (Ok (lit "User deleted successfully"), Scenario.alice_reported).
Proof.
  assert (Hn : ~ user_in Scenario.alice_reported Scenario.bob).
  { intros [u [[<-|[]] E]]. vm_compute in E. discriminate E. }
  split; [exact Hn|].
  apply X7_add_then_delete; [exact Hn|].
  intros r [<-|[]] E. vm_compute in E. discriminate E.
Defined.

(** X8: after a successful [delete_user] no report is stored under the
    name for any date, and the stores keep at most one report per
    [(date, name)] pair and distinct user names if they had them; with
    distinct names, the name is out of the directory and deleting it a
    second time fails with [NotFound], changing nothing. *)
Theorem X8_delete_user_effects :
  forall (w : World) (name token token' : str),
    user_in w name ->
    (forall date, ~ has_report (snd (delete_user name token w)) date name)
    /\ (ReportsUnique w -> ReportsUnique (snd (delete_user name token w)))
    /\ (UsersUnique w ->
        UsersUnique (snd (delete_user name token w))
        /\ ~ user_in (snd (delete_user name token w)) name
        /\ exists e,
             delete_user name token' (snd (delete_user name token w))
             = (Raise e, snd (delete_user name token w))
             /\ NotFound e).
Proof.
  intros w name token token' H.
  rewrite (delete_user_present w name token H); simpl.
  split; [|split].
  - intros date [r [Hr [_ Hn]]]. simpl in Hr.
    apply delete_many_in in Hr as [_ Hq]. apply eqb_neq in Hq. contradiction.
  - intros U. unfold ReportsUnique; simpl. apply filter_NoDup, U.
  - intros U.
    set (w' := set_reports _ _).
    assert (N : ~ user_in w' name).
    { apply existing_user_iff in H.
      destruct (Coll.find_one (fun u => Py.eqb (user_name u) name)
                              (users_collection w)) as [u|] eqn:F;
        [clear H | discriminate].
      destruct (delete_one_split _ _ _ F) as [before [after [E [_ Hd]]]].
      apply find_one_some in F as [_ Hu]. apply eqb_eq in Hu.
      intros [x [Hx Hn]]. unfold w' in Hx; simpl in Hx. rewrite Hd in Hx.
      unfold UsersUnique in U. rewrite E in U.
      apply (unique_remove before after u U) in Hx as [_ Hx]. congruence. }
    split; [|split; [exact N|]].
    + unfold UsersUnique, w'; simpl. apply delete_one_NoDup, U.
    + exists (http 404 "User not found").
      split; [apply delete_user_absent, N | left; reflexivity].
Qed.

Lemma X8_delete_user_effects_witness :
  user_in Scenario.team_world Scenario.alice
  /\ (forall date,
        ~ has_report (snd (delete_user Scenario.alice Scenario.admin_token
                                       Scenario.team_world))
                     date Scenario.alice).
Proof.
  assert (Ha : user_in Scenario.team_world Scenario.alice).
  { exists (mkUser Scenario.alice). simpl; auto. }
  split; [exact Ha|].
  apply (proj1 (X8_delete_user_effects Scenario.team_world Scenario.alice
                  Scenario.admin_token Scenario.admin_token Ha)).
Defined.

(* ================================================================== *)
(** * Further properties: reports *)
(* ================================================================== *)

Lemma word_starts_zero (s : str) :
  word_starts true s = 0 <-> forallb Py.isspace s = true.
Proof.
  induction s as [|c r IH]; simpl; [tauto|].
  destruct (Py.isspace c); simpl; [exact IH|].
  split; [lia | discriminate].
Qed.

(** A text has no word exactly when it is empty after trimming. *)
Lemma count_words_zero_iff (s : str) :
  count_words s = 0 <-> Py.strip s = [].
Proof.
  rewrite count_words_spec, strip_nil_iff. apply word_starts_zero.
Qed.

Lemma word_starts_app (a b : str) (c : N) :
  Py.isspace c = true ->
  forall f, word_starts f (a ++ c :: b) = word_starts f a + word_starts true b.
Proof.
  intros Hc. induction a as [|x a IH]; intros f; simpl.
  - rewrite Hc. reflexivity.
  - destruct (Py.isspace x); rewrite IH; lia.
Qed.

(** X11: the two checks of [save_report] together accept exactly the
    submissions whose [yesterday] and [today] have between 1 and 10
    words each: a submission is answered with [ValidationError] if
    and only if one of the two fields has no word or more than 10. *)
Theorem X11_validation_is_word_range :
  forall (w : World) (date name yesterday today blockers : str),
    (exists e,
       save_report date name yesterday today blockers w = (Raise e, w)
       /\ ValidationError e)
    <-> ~ ((1 <= count_words yesterday <= 10)
           /\ (1 <= count_words today <= 10)).
Proof.
  intros w date name yesterday today blockers.
  destruct (fields_dec yesterday today) as [[V|[Hy [Ht V]]]|[Hy [Ht [Sy St]]]].
  - split; [intros _; lia|]. intros _. eexists.
    split; [apply save_report_too_long, V | left; reflexivity].
  - split.
    + intros _ [[A _] [B _]].
      destruct V as [V|V]; apply count_words_zero_iff in V; lia.
    + intros _. eexists.
      split; [apply save_report_empty; assumption | right; reflexivity].
  - rewrite <- count_words_zero_iff in Sy, St. split.
    + intros [e [E V]]. exfalso.
      rewrite save_report_valid in E
        by (try assumption; rewrite <- count_words_zero_iff; assumption).
      destruct (is_some _); [|discriminate E].
      injection E as <-. destruct V as [V|V]; discriminate V.
    + intros N. exfalso. apply N. lia.
Qed.

Lemma save_report_frame (w : World)
      (date name yesterday today blockers : str) :
  let w' := snd (save_report date name yesterday today blockers w) in
  (reports_collection w' = reports_collection w
   \/ reports_collection w'
      = reports_collection w ++ [mkReport date name yesterday today blockers])
  /\ users_collection w' = users_collection w
  /\ action_items_collection w' = action_items_collection w
  /\ admins_collection w' = admins_collection w
  /\ llm_calls w' = llm_calls w
  /\ saved_files w' = saved_files w.
Proof.
  simpl.
  destruct (save_report_world w date name yesterday today blockers)
    as [->|[_ ->]]; simpl; repeat split; auto.
Qed.

(** X13: submissions only ever append to the report store.  After a
    sequence of submissions the earlier reports are still there, in
    place and unchanged, followed by reports that each carry exactly
    the fields of one of the submissions; users, action items, admins,
    the prompt log and the files are untouched. *)
Theorem X13_submissions_append_only :
  forall (subs : list Submission) (w : World),
    (exists accepted,
       reports_collection (submit_all subs w)
       = reports_collection w ++ accepted
       /\ forall r, In r accepted ->
            exists s, In s subs
              /\ r = mkReport (sub_date s) (sub_name s) (sub_yesterday s)
                              (sub_today s) (sub_blockers s))
    /\ users_collection (submit_all subs w) = users_collection w
    /\ action_items_collection (submit_all subs w)
       = action_items_collection w
    /\ admins_collection (submit_all subs w) = admins_collection w
    /\ llm_calls (submit_all subs w) = llm_calls w
    /\ saved_files (submit_all subs w) = saved_files w.
Proof.
  induction subs as [|s rest IH]; intros w; simpl.
  - split; [exists []; rewrite app_nil_r; split; [reflexivity | intros r []]|].
    repeat split; reflexivity.
  - destruct (IH (snd (submit s w))) as [[acc [E Hacc]] [U [A [D [L F]]]]].
    destruct (save_report_frame w (sub_date s) (sub_name s) (sub_yesterday s)
                (sub_today s) (sub_blockers s))
      as [R [U' [A' [D' [L' F']]]]].
    fold (submit s) in R, U', A', D', L', F'.
    split; [|repeat split; congruence].
    destruct R as [R|R]; rewrite E, R.
    + exists acc. split; [reflexivity|].
      intros r Hr. destruct (Hacc r Hr) as [s' [Hs' Er]]. exists s'; auto.
    + eexists. split; [rewrite <- app_assoc; reflexivity|].
      intros r [<-|Hr]; [exists s; auto|].
      destruct (Hacc r Hr) as [s' [Hs' Er]]. exists s'; auto.
Qed.

(** X14: [count_words] adds up over white space: the words of two
    texts joined by a white-space character are the words of the one
    and the words of the other. *)
Theorem X14_count_words_additive :
  forall (a b : str) (c : N),
    Py.isspace c = true ->
    count_words (a ++ c :: b) = count_words a + count_words b.
Proof.
  intros a b c Hc. rewrite !count_words_spec. unfold words_spec.
  apply word_starts_app, Hc.
Qed.

Lemma X14_count_words_additive_witness :
  Py.isspace 32%N = true
  /\ count_words (lit "wrote tests" ++ 32%N :: lit "review PR")
     = count_words (lit "wrote tests") + count_words (lit "review PR").
Proof.
  split; [reflexivity|]. apply X14_count_words_additive. reflexivity.
Defined.

Lemma enumerate_length {A : Type} (l : list A) (k : nat) :
  List.length (enumerate k l) = List.length l.
Proof. revert k; induction l; intros k; simpl; auto. Qed.

(** X9: [get_reports] reads and never writes, and never fails: for a
    date without reports it returns the empty list.  It returns one
    row per report of the date, in listing order; the row of the
    report at position [i] (from 0) carries the number [i + 1] and the
    name, yesterday, today and blockers of that report, unchanged. *)
Theorem X9_get_reports_rows :
  forall (w : World) (date token : str),
    exists rows,
      get_reports date token w = (Ok rows, w)
      /\ List.length rows = List.length (reports_of w date)
      /\ (forall i r,
            nth_error (reports_of w date) i = Some r ->
            nth_error rows i
            = Some (mkReportRow (i + 1) (report_name r) (report_yesterday r)
                                (report_today r) (report_blockers r)))
      /\ ((forall r, In r (reports_collection w) -> report_date r <> date) ->
          rows = []).
Proof.
  intros w date token.
  exists (map (fun '(i, report) =>
                 mkReportRow (i + 1) (report_name report)
                             (report_yesterday report) (report_today report)
                             (report_blockers report))
              (enumerate 0 (reports_of w date))).
  split; [reflexivity|]. split; [|split].
  - rewrite length_map. apply enumerate_length.
  - intros i r Hi.
    rewrite (map_nth_error _ i (enumerate 0 (reports_of w date))
               (enumerate_nth _ 0 i r Hi)).
    reflexivity.
  - intros H. apply reports_of_nil_iff in H. rewrite H. reflexivity.
Qed.

Lemma data_rows_export (date : str) (reports : list Report)
      (action_items : option ActionItems) :
  data_rows (export_document date reports action_items)
  = map export_row (enumerate 1 reports).
Proof.
  unfold export_document, data_rows, action_section. simpl.
  destruct action_items as [a|]; [destruct (Py.truthy (ai_items a))|];
    simpl; rewrite app_nil_r; reflexivity.
Qed.

Lemma export_rows_printed (reports : list Report) : forall k,
  map export_row (enumerate (k + 1) reports)
  = map printed_row
        (map (fun '(i, report) =>
                mkReportRow (i + 1) (report_name report)
                            (report_yesterday report) (report_today report)
                            (report_blockers report))
             (enumerate k reports)).
Proof.
  induction reports as [|r l IH]; intros k; simpl; auto.
  rewrite <- (IH (S k)). reflexivity.
Qed.

(** X10: the export and the listing agree.  For a date with reports,
    when python-docx takes every text of the export and the file can
    be written, the data rows of the document [download_report] writes
    are the rows [get_reports] returns, in the same order and with the
    same numbers, each printed as number, name, yesterday, today and
    the blockers text or [None]. *)
Theorem X10_export_matches_listing :
  forall (docx_accepts : str -> bool) (doc_save_ok : nat -> str -> bool)
         (w : World) (date token token' : str) (rows : list ReportRow),
    reports_of w date <> [] ->
    (forall text,
       In text (export_texts date (reports_of w date) (cached w date)) ->
       docx_accepts text = true) ->
    doc_save_ok (List.length (saved_files w)) (export_path date) = true ->
    fst (get_reports date token w) = Ok rows ->
    exists response doc,
      download_report docx_accepts doc_save_ok date token' w
      = (Ok response,
         set_saved_files (fun fs => fs ++ [(export_path date, doc)]) w)
      /\ data_rows doc = map printed_row rows.
Proof.
  intros docx_accepts doc_save_ok w date token token' rows Hr Ha Hs H.
  rewrite (download_report_run docx_accepts doc_save_ok w date token'
             Hr Ha Hs).
  eexists. eexists. split; [reflexivity|].
  unfold get_reports in H. simpl in H. injection H as <-.
  rewrite data_rows_export. exact (export_rows_printed _ 0).
Qed.

Lemma X10_export_matches_listing_witness :
  reports_of Scenario.team_world Scenario.day <> []
  /\ forallb Scenario.plain_text
       (export_texts Scenario.day
          (reports_of Scenario.team_world Scenario.day)
          (cached Scenario.team_world Scenario.day)) = true
  /\ Scenario.disk_ok (List.length (saved_files Scenario.team_world))
                      (export_path Scenario.day) = true
  /\ exists rows response doc,
       fst (get_reports Scenario.day Scenario.admin_token Scenario.team_world)
       = Ok rows
       /\ download_report Scenario.plain_text Scenario.disk_ok Scenario.day
                          Scenario.admin_token Scenario.team_world
          = (Ok response,
             set_saved_files
               (fun fs => fs ++ [(export_path Scenario.day, doc)])
               Scenario.team_world)
       /\ data_rows doc = map printed_row rows.
Proof.
  assert (Hr : reports_of Scenario.team_world Scenario.day <> [])
    by (vm_compute; discriminate).
  assert (Ha : forallb Scenario.plain_text
                 (export_texts Scenario.day
                    (reports_of Scenario.team_world Scenario.day)
                    (cached Scenario.team_world Scenario.day)) = true)
    by reflexivity.
  split; [exact Hr|]. split; [exact Ha|]. split; [reflexivity|]. eexists.
  destruct (X10_export_matches_listing Scenario.plain_text Scenario.disk_ok
              Scenario.team_world Scenario.day
              Scenario.admin_token Scenario.admin_token _ Hr
              (proj1 (forallb_forall _ _) Ha) eq_refl eq_refl)
    as [response [doc [E D]]].
  exists response, doc. split; [reflexivity|]. split; [exact E | exact D].
Defined.

(** X20: [check_report] reads and never writes, and never fails.  It
    answers that no report exists exactly when none is stored for the
    pair; otherwise it returns yesterday, today and blockers of a
    stored report of the pair.  Right after a successful [save_report]
    it returns exactly the submitted yesterday, today and blockers. *)
Theorem X20_check_report_round_trip :
  forall (object_id : Report -> str) (w : World) (date name : str),
    snd (check_report object_id date name w) = w
    /\ (fst (check_report object_id date name w) = Ok None
        <-> ~ has_report w date name)
    /\ (forall c,
          fst (check_report object_id date name w) = Ok (Some c) ->
          exists r, In r (reports_collection w)
                    /\ report_date r = date /\ report_name r = name
                    /\ c = mkCheckedReport (report_yesterday r)
                           (report_today r) (report_blockers r)
                           (object_id r))
    /\ (exists answer, fst (check_report object_id date name w) = Ok answer)
    /\ (forall yesterday today blockers message,
          fst (save_report date name yesterday today blockers w) = Ok message ->
          fst (check_report object_id date name
                 (snd (save_report date name yesterday today blockers w)))
          = Ok (Some (mkCheckedReport yesterday today blockers
                        (object_id (mkReport date name yesterday today
                                             blockers))))).
Proof.
  intros object_id w date name.
  assert (R : forall w', check_report object_id date name w'
              = (Ok (option_map
                       (fun r => mkCheckedReport (report_yesterday r)
                                   (report_today r) (report_blockers r)
                                   (object_id r))
                       (Coll.find_one
                          (fun r => Py.eqb (report_date r) date
                                    && Py.eqb (report_name r) name)
                          (reports_collection w'))), w')).
  { intros w'. unfold check_report. run.
    destruct (Coll.find_one _ _); reflexivity. }
  rewrite R. simpl.
  split; [reflexivity|]. split; [|split; [|split]].
  - rewrite <- existing_report_iff.
    destruct (Coll.find_one _ _); simpl; split; congruence.
  - intros c H.
    destruct (Coll.find_one _ _) as [r|] eqn:F; simpl in H; [|discriminate].
    injection H as <-. apply find_one_some in F as [Hin Hq].
    apply andb_true_iff in Hq as [H1 H2]. apply eqb_eq in H1, H2.
    exists r. auto.
  - eexists; reflexivity.
  - intros yesterday today blockers message H.
    destruct (fields_dec yesterday today)
      as [[V|[Hy [Ht V]]]|[Hy [Ht [Sy St]]]].
    + rewrite save_report_too_long in H by exact V. discriminate H.
    + rewrite save_report_empty in H by assumption. discriminate H.
    + rewrite save_report_valid in * by assumption.
      destruct (is_some _) eqn:S; [discriminate H|].
      rewrite R. simpl.
      rewrite (find_one_snoc_none _ (reports_collection w)
                 (mkReport date name yesterday today blockers)).
      * reflexivity.
      * destruct (Coll.find_one _ _); [discriminate S | reflexivity].
      * simpl. rewrite !eqb_refl. reflexivity.
Qed.

(* ================================================================== *)
(** * Further properties: action items and export *)
(* ================================================================== *)

Lemma find_one_snoc_false {A : Type} (q : A -> bool) (c : list A) (d : A) :
  q d = false -> Coll.find_one q (Coll.insert_one d c) = Coll.find_one q c.
Proof.
  unfold Coll.find_one, Coll.insert_one. intros H.
  induction c as [|x r IH]; simpl; [rewrite H; reflexivity|].
  destruct (q x); auto.
Qed.

(** The three ways [generate_action_items] can go. *)
Lemma generate_cases (llm : nat -> str -> option str)
      (client : nat -> bool) (w : World) (date token : str) :
  (exists e, generate_action_items llm client date token w = (Raise e, w))
  \/ (exists a, cached w date = Some a
                /\ generate_action_items llm client date token w
                   = (Ok (ai_items a), w))
  \/ (reports_of w date <> [] /\ cached w date = None
      /\ ((exists e, generate_action_items llm client date token w
                     = (Raise e, called w date))
          \/ exists text,
               generate_action_items llm client date token w
               = (Ok text,
                  set_action_items
                    (Coll.insert_one (mkActionItems date text))
                    (called w date)))).
Proof.
  destruct (reports_of w date) as [|r l] eqn:Hr.
  - left. eexists. apply generate_no_reports, Hr.
  - assert (Hr' : reports_of w date <> []) by (rewrite Hr; discriminate).
    rewrite <- Hr in *. clear Hr.
    destruct (cached w date) as [a|] eqn:Hc.
    + right; left. exists a. split; [reflexivity|].
      apply generate_cached; assumption.
    + rewrite (generate_fresh llm client w date token Hr' Hc).
      destruct (client _); [|left; eexists; reflexivity].
      right; right. split; [exact Hr'|]. split; [reflexivity|].
      destruct (llm _ _); [right | left]; eexists; reflexivity.
Qed.

(** X15: [generate_action_items] never touches users, reports, admins
    or files, sends at most one prompt, and treats the cache as
    write-once: a record the lookup finds before the call is found
    unchanged after it, records of other dates are not affected, and
    a cache with at most one record per date stays so. *)
Theorem X15_generate_cache_write_once :
  forall (llm : nat -> str -> option str) (client : nat -> bool)
         (w : World) (date token : str),
    users_collection (snd (generate_action_items llm client date token w))
    = users_collection w
    /\ reports_collection (snd (generate_action_items llm client date token w))
       = reports_collection w
    /\ admins_collection (snd (generate_action_items llm client date token w))
       = admins_collection w
    /\ saved_files (snd (generate_action_items llm client date token w))
       = saved_files w
    /\ List.length
         (llm_calls (snd (generate_action_items llm client date token w)))
       <= List.length (llm_calls w) + 1
    /\ (forall d a, cached w d = Some a ->
          cached (snd (generate_action_items llm client date token w)) d = Some a)
    /\ (forall d, d <> date ->
          cached (snd (generate_action_items llm client date token w)) d
          = cached w d)
    /\ (ActionItemsUnique w ->
        ActionItemsUnique (snd (generate_action_items llm client date token w))).
Proof.
  intros llm client w date token.
  destruct (generate_cases llm client w date token)
    as [[e E]|[[a [_ E]]|[_ [Hc [[e E]|[text E]]]]]]; rewrite E; simpl.
  - repeat split; auto; lia.
  - repeat split; auto; lia.
  - repeat split; auto. rewrite length_app; simpl; lia.
  - repeat split; auto.
    + rewrite length_app; simpl; lia.
    + intros d a H. unfold cached; simpl.
      apply find_one_app_some, H.
    + intros d Hd. unfold cached; simpl. apply find_one_snoc_false.
      simpl. apply eqb_neq. congruence.
    + intros U. unfold ActionItemsUnique, Coll.insert_one; simpl.
      rewrite map_app; simpl. apply NoDup_snoc; [exact U|].
      intros Hin. apply in_map_iff in Hin as [a [Ha Hin]].
      unfold cached in Hc. rewrite find_one_none in Hc.
      specialize (Hc a Hin). rewrite Ha, eqb_refl in Hc. discriminate.
Qed.

(** X16: what [generate_action_items] returns is what
    [get_action_items] returns afterwards for the same date; and for a
    date without a cached record [get_action_items] returns the empty
    string, not an error.  [get_action_items] never writes. *)
Theorem X16_generate_then_get :
  forall (llm : nat -> str -> option str) (client : nat -> bool)
         (w : World)
         (date token token' : str),
    (forall text,
       fst (generate_action_items llm client date token w) = Ok text ->
       get_action_items date token'
         (snd (generate_action_items llm client date token w))
       = (Ok text, snd (generate_action_items llm client date token w)))
    /\ (cached w date = None -> get_action_items date token' w = (Ok [], w))
    /\ snd (get_action_items date token' w) = w.
Proof.
  intros llm client w date token token'.
  assert (G : forall w', get_action_items date token' w'
              = (Ok match cached w' date with
                    | Some a => ai_items a
                    | None => []
                    end, w')).
  { intros w'. unfold get_action_items. run. fold (cached w' date).
    destruct (cached w' date); reflexivity. }
  split; [|split].
  - intros text.
    destruct (generate_cases llm client w date token)
      as [[e E]|[[a [Hc E]]|[_ [Hc [[e E]|[text' E]]]]]]; rewrite E; simpl;
      try discriminate; intros H; injection H as <-; rewrite G.
    + rewrite Hc. reflexivity.
    + assert (C : cached (set_action_items
                            (Coll.insert_one (mkActionItems date text'))
                            (called w date)) date
                  = Some (mkActionItems date text')).
      { unfold cached; simpl. apply find_one_snoc_none; [exact Hc|].
        apply eqb_refl. }
      rewrite C. reflexivity.
  - intros Hc. rewrite G, Hc. reflexivity.
  - rewrite G. reflexivity.
Qed.

Lemma fold_left_append {A : Type} (f : A -> str) (l : list A) : forall init,
  fold_left (fun acc x => acc ++ f x) l init = init ++ List.concat (map f l).
Proof.
  induction l as [|x l IH]; intros init; simpl.
  - rewrite app_nil_r. reflexivity.
  - rewrite IH, <- app_assoc. reflexivity.
Qed.

(** X17: on a cache miss for a date with reports, when the client of
    the language model is built, exactly one prompt is handed to it,
    whether it then answers or raises; when the client cannot be
    built, none is.  The prompt is the fixed instruction text (code
    point 10 is the line feed, 34 the double quote, 8226 the bullet),
    the line [Daily Reports:] and then, per report of the date in
    listing order, its name, yesterday, today and blockers. *)
Theorem X17_prompt_lists_reports :
  forall (llm : nat -> str -> option str) (client : nat -> bool)
         (w : World) (date token : str),
    reports_of w date <> [] ->
    cached w date = None ->
    (client (List.length (llm_calls w)) = true ->
     llm_calls (snd (generate_action_items llm client date token w))
     = llm_calls w
       ++ [lit "From the following daily reports, extract the main and unique action items based on the 'Today's Priorities' field. "
          ++ [10%N]
          ++ lit "    Follow these guidelines:" ++ [10%N]
          ++ lit "    - Extract each distinct task as a separate action item - do not combine unrelated tasks, even if they come from the same person."
          ++ [10%N]
          ++ lit "    - For example, if one person mentions both "
          ++ [34%N] ++ lit "lead generation" ++ [34%N] ++ lit " and "
          ++ [34%N] ++ lit "MOM automation implementation" ++ [34%N]
          ++ lit ", treat them as two separate action items." ++ [10%N]
          ++ lit "    - Only consolidate tasks that are directly related (e.g., multiple aspects of the same feature like "
          ++ [34%N] ++ lit "enhancing and testing" ++ [34%N]
          ++ lit " the same agents)." ++ [10%N]
          ++ lit "    - Focus on the primary objectives for the day."
          ++ [10%N]
          ++ lit "    - Each action item should be distinct and represent a unique goal or task."
          ++ [10%N]
          ++ lit "    - Output in bullet point format using this structure:"
          ++ [10%N]
          ++ lit "    " ++ [8226%N] ++ lit " [Action Item]" ++ [10%N]
          ++ lit "    - Ensure no unrelated tasks are merged together."
          ++ [10%N] ++ [10%N]
          ++ lit "    Reports:" ++ [10%N]
          ++ lit "Daily Reports:" ++ [10%N]
          ++ List.concat
               (map (fun r =>
                       report_name r ++ lit ":" ++ [10%N]
                       ++ lit "- Yesterday: " ++ report_yesterday r ++ [10%N]
                       ++ lit "- Today: " ++ report_today r ++ [10%N]
                       ++ lit "- Blockers: " ++ report_blockers r
                       ++ [10%N; 10%N])
                    (reports_of w date))])
    /\ (client (List.length (llm_calls w)) = false ->
        llm_calls (snd (generate_action_items llm client date token w))
        = llm_calls w).
Proof.
  intros llm client w date token Hr Hc.
  rewrite (generate_fresh llm client w date token Hr Hc).
  split; intros K; rewrite K; [|reflexivity].
  assert (P : build_prompt (reports_of w date)
              = prompt_instructions ++ lit "Daily Reports:" ++ nl
                ++ List.concat (map content_entry (reports_of w date))).
  { unfold build_prompt, build_content.
    rewrite fold_left_append, <- app_assoc. reflexivity. }
  assert (Q : llm_calls (called w date)
              = llm_calls w
                ++ [prompt_instructions ++ lit "Daily Reports:" ++ nl
                    ++ List.concat
                         (map content_entry (reports_of w date))]).
  { unfold called. cbn [llm_calls set_llm_calls]. rewrite P. reflexivity. }
  destruct (llm _ _); cbn [snd set_action_items llm_calls]; exact Q.
Qed.

Lemma X17_prompt_lists_reports_witness :
  reports_of Scenario.alice_reported Scenario.day <> []
  /\ cached Scenario.alice_reported Scenario.day = None
  /\ List.length
       (llm_calls (snd (generate_action_items Scenario.flaky_llm
                          Scenario.client_ok Scenario.day
                          Scenario.admin_token Scenario.alice_reported)))
     = 1
  /\ llm_calls (snd (generate_action_items Scenario.flaky_llm
                       Scenario.no_client Scenario.day
                       Scenario.admin_token Scenario.alice_reported))
     = [].
Proof.
  assert (Hr : reports_of Scenario.alice_reported Scenario.day <> [])
    by (vm_compute; discriminate).
  split; [exact Hr|]. split; [reflexivity|]. split.
  - rewrite (proj1 (X17_prompt_lists_reports Scenario.flaky_llm
                      Scenario.client_ok Scenario.alice_reported
                      Scenario.day Scenario.admin_token Hr eq_refl)
                   eq_refl).
    reflexivity.
  - exact (proj2 (X17_prompt_lists_reports Scenario.flaky_llm
                    Scenario.no_client Scenario.alice_reported
                    Scenario.day Scenario.admin_token Hr eq_refl)
                 eq_refl).
Defined.

Lemma download_report_none (accepts : str -> bool)
      (save_ok : nat -> str -> bool) (w : World) (date token : str) :
  reports_of w date = [] ->
  download_report accepts save_ok date token w
  = (Raise (http 404 "No reports found for this date"), w).
Proof.
  intros E. rewrite download_report_spec, E. reflexivity.
Qed.

Lemma export_row_length (ir : nat * Report) : List.length (export_row ir) = 5.
Proof. destruct ir; reflexivity. Qed.

(** X18: [download_report] never touches the collections and never
    calls the language model.  For a date without reports it fails
    with [NotFound] (HTTP 404), whatever the cache holds, and the
    world is unchanged.  For a date with reports: when python-docx
    rejects one of the texts of the export (the title with the date,
    a field of a report, the cached action items), the handler raises
    an exception that is not an [HTTPException] before any file is
    saved and the world is unchanged; when the texts are taken and
    [doc.save] raises, it raises such an exception too; and when the
    texts are taken and the file is written, it records one file
    whose table starts with the header row, has one more row than the
    date has reports, and has five cells in every row. *)
Theorem X18_download_report_frame :
  forall (docx_accepts : str -> bool) (doc_save_ok : nat -> str -> bool)
         (w : World) (date token : str),
    users_collection
      (snd (download_report docx_accepts doc_save_ok date token w))
    = users_collection w
    /\ reports_collection
         (snd (download_report docx_accepts doc_save_ok date token w))
       = reports_collection w
    /\ action_items_collection
         (snd (download_report docx_accepts doc_save_ok date token w))
       = action_items_collection w
    /\ admins_collection
         (snd (download_report docx_accepts doc_save_ok date token w))
       = admins_collection w
    /\ llm_calls (snd (download_report docx_accepts doc_save_ok date token w))
       = llm_calls w
    /\ ((forall r, In r (reports_collection w) -> report_date r <> date) ->
        exists e,
          download_report docx_accepts doc_save_ok date token w
          = (Raise e, w)
          /\ NotFound e /\ http_status e = 404%Z)
    /\ (reports_of w date <> [] ->
        (exists text,
           In text (export_texts date (reports_of w date) (cached w date))
           /\ docx_accepts text = false) ->
        download_report docx_accepts doc_save_ok date token w
        = (Raise OtherExc, w))
    /\ (reports_of w date <> [] ->
        doc_save_ok (List.length (saved_files w)) (export_path date) = false ->
        fst (download_report docx_accepts doc_save_ok date token w)
        = Raise OtherExc)
    /\ (reports_of w date <> [] ->
        (forall text,
           In text (export_texts date (reports_of w date) (cached w date)) ->
           docx_accepts text = true) ->
        doc_save_ok (List.length (saved_files w)) (export_path date) = true ->
        exists cells rest,
          saved_files
            (snd (download_report docx_accepts doc_save_ok date token w))
          = saved_files w
            ++ [(export_path date,
                 [Heading (lit "MOM Consolidated Report - " ++ date) 0;
                  Heading (lit "Daily Progress Reports") 1;
                  Table (lit "Table Grid") cells] ++ rest)]
          /\ nth_error cells 0 = Some table_headers
          /\ List.length cells = List.length (reports_of w date) + 1
          /\ Forall (fun row => List.length row = 5) cells).
Proof.
  intros docx_accepts doc_save_ok w date token.
  rewrite download_report_spec.
  destruct (reports_of w date) as [|r l] eqn:Hr.
  - cbn [fst snd]. repeat (split; [reflexivity|]).
    split; [|repeat split; congruence].
    intros _. eexists. split; [reflexivity|]. split; [right|]; reflexivity.
  - assert (F : (forall r0, In r0 (reports_collection w) ->
                            report_date r0 <> date) -> False).
    { intros H. apply reports_of_nil_iff in H. congruence. }
    destruct (forallb docx_accepts _) eqn:A.
    + destruct (doc_save_ok _ _) eqn:S;
        cbn [fst snd users_collection reports_collection
             action_items_collection admins_collection llm_calls
             saved_files set_saved_files].
      * repeat (split; [reflexivity|]). split; [intros H; destruct (F H)|].
        split; [|split; [intros _ H; discriminate H|]].
        { intros _ [text [Hin Ht]].
          rewrite forallb_forall in A. rewrite (A text Hin) in Ht.
          discriminate Ht. }
        intros _ _ _.
        exists (export_table (r :: l)), (action_section (cached w date)).
        split; [reflexivity|]. split; [reflexivity|]. split.
        -- unfold export_table. cbn [List.length].
           rewrite length_map, enumerate_length. cbn [List.length]. lia.
        -- unfold export_table. constructor; [reflexivity|].
           apply Forall_forall. intros row Hin.
           apply in_map_iff in Hin as [ir [<- _]]. apply export_row_length.
      * repeat (split; [reflexivity|]). split; [intros H; destruct (F H)|].
        split; [intros; reflexivity|]. split; [intros; reflexivity|].
        intros _ _ H. discriminate H.
    + cbn [fst snd]. repeat (split; [reflexivity|]).
      split; [intros H; destruct (F H)|].
      split; [intros; reflexivity|]. split; [intros; reflexivity|].
      intros _ H _. apply forallb_forall in H. congruence.
Qed.

(* ================================================================== *)
(** * Further properties: the application as a whole *)
(* ================================================================== *)

Lemma Depends_cases {A : Type} (request : Request) (handler : str -> M A)
      (w : World) :
  (exists token, Depends request handler w = handler token w)
  \/ snd (Depends request handler w) = w.
Proof.
  unfold Depends, bind. rewrite get_current_admin_run.
  destruct (cookies_get _ _) as [tok|]; [|right; reflexivity].
  destruct (Py.truthy tok); [|right; reflexivity].
  destruct (is_some (admin_of w tok)); [left; exists tok|right]; reflexivity.
Qed.

Lemma save_report_effect (w : World)
      (date name yesterday today blockers : str) :
  effect w (snd (save_report date name yesterday today blockers w)).
Proof.
  destruct (fields_dec yesterday today) as [[V|[Hy [Ht V]]]|[Hy [Ht [Sy St]]]].
  - rewrite save_report_too_long by exact V. constructor.
  - rewrite save_report_empty by assumption. constructor.
  - rewrite save_report_valid by assumption.
    destruct (is_some _) eqn:E; [constructor|]. simpl.
    apply (@effect_report w (mkReport date name yesterday today blockers)).
    + simpl. rewrite <- existing_report_iff, E. discriminate.
    + unfold report_valid; simpl.
      rewrite <- count_words_zero_iff in Sy, St. lia.
Qed.

Lemma add_user_effect (w : World) (name token : str) :
  effect w (snd (add_user name token w)).
Proof.
  rewrite add_user_run. destruct (is_some _) eqn:E; [constructor|].
  simpl. constructor. rewrite <- existing_user_iff, E. discriminate.
Qed.

Lemma delete_user_effect (w : World) (name token : str) :
  effect w (snd (delete_user name token w)).
Proof.
  unfold delete_user. run. destruct (is_some _); simpl; constructor.
Qed.

Lemma generate_effect (llm : nat -> str -> option str)
      (client : nat -> bool) (w : World) (date token : str) :
  effect w (snd (generate_action_items llm client date token w)).
Proof.
  destruct (generate_cases llm client w date token)
    as [[e E]|[[a [_ E]]|[_ [Hc [[e E]|[text E]]]]]]; rewrite E; simpl;
    constructor. exact Hc.
Qed.

Lemma download_report_effect (accepts : str -> bool)
      (save_ok : nat -> str -> bool) (w : World) (date token : str) :
  effect w (snd (download_report accepts save_ok date token w)).
Proof.
  rewrite download_report_spec.
  destruct (reports_of w date) as [|r l]; [constructor|].
  destruct (forallb accepts _); [|constructor].
  destruct (save_ok _ _); cbn [snd]; constructor.
Qed.

Lemma Depends_effect {A : Type} (request : Request) (handler : str -> M A)
      (w : World) :
  (forall token, effect w (snd (handler token w))) ->
  effect w (snd (Depends request handler w)).
Proof.
  intros H. destruct (Depends_cases request handler w) as [[token ->]| ->].
  - apply H.
  - constructor.
Qed.

(** Every call but start-up changes the world in one of the ways of
    [effect]. *)
Lemma serve_effect (pwd_verify : str -> str -> option bool)
      (pwd_hash : str -> str) (llm : nat -> str -> option str)
      (object_id : Report -> str)
      (client : nat -> bool) (docx_accepts : str -> bool)
      (doc_save_ok : nat -> str -> bool)
      (c : Call) (w : World) :
  c <> Startup ->
  effect w (serve pwd_verify pwd_hash llm object_id client
              docx_accepts doc_save_ok c w).
Proof.
  intros N. destruct c; simpl; try congruence.
  - rewrite login_run. destruct (admin_of w email); [|constructor].
    destruct (verify_password _ _ _); constructor.
  - unfold check_report. run. destruct (Coll.find_one _ _); constructor.
  - apply save_report_effect.
  - apply Depends_effect. intros; apply add_user_effect.
  - apply Depends_effect. intros; apply delete_user_effect.
  - apply Depends_effect. intros; constructor.
  - apply Depends_effect. intros; constructor.
  - apply Depends_effect. intros; apply generate_effect.
  - apply Depends_effect. intros token. unfold get_action_items. run.
    destruct (Coll.find_one _ _); constructor.
  - apply Depends_effect. intros; apply download_report_effect.
Qed.

Lemma startup_world (pwd_hash : str -> str) (w : World) :
  snd (startup_event pwd_hash w) = w
  \/ (admin_of w admin_email_default = None
      /\ snd (startup_event pwd_hash w)
         = set_admins
             (Coll.insert_one
                (mkAdmin admin_email_default
                         (pwd_hash admin_password_default))) w).
Proof.
  unfold startup_event. run. fold (admin_of w admin_email_default).
  destruct (admin_of w admin_email_default); [left | right]; auto.
Qed.

Lemma filter_Forall {A : Type} (P : A -> Prop) (p : A -> bool) (l : list A) :
  Forall P l -> Forall P (filter p l).
Proof.
  rewrite !Forall_forall. intros H x Hx.
  apply filter_In in Hx as [Hx _]. auto.
Qed.

Lemma effect_consistent (w w' : World) :
  effect w w' -> Consistent w -> Consistent w'.
Proof.
  intros E [R [U [A V]]].
  destruct E as [|r Hn Hv|name Hn|name|date|date text Hc|path doc];
    unfold Consistent, ReportsUnique, UsersUnique, ActionItemsUnique,
           ReportsValid in *; simpl; auto.
  - repeat split; auto.
    + unfold Coll.insert_one. rewrite map_app. simpl.
      apply NoDup_snoc; auto. intros Hin.
      apply in_map_iff in Hin as [r' [Hk Hr']]. apply Hn. exists r'.
      unfold report_key in Hk. inversion Hk; auto.
    + unfold Coll.insert_one. apply Forall_app. split; auto.
  - repeat split; auto.
    unfold Coll.insert_one. rewrite map_app. simpl.
    apply NoDup_snoc; auto. intros Hin.
    apply in_map_iff in Hin as [u [Hk Hu]]. apply Hn. exists u. auto.
  - repeat split; auto.
    + apply filter_NoDup, R.
    + apply delete_one_NoDup, U.
    + apply filter_Forall, V.
  - repeat split; auto.
    unfold Coll.insert_one. rewrite map_app. simpl.
    apply NoDup_snoc; auto. intros Hin.
    apply in_map_iff in Hin as [a [Ha Hin]].
    unfold cached in Hc. rewrite find_one_none in Hc.
    specialize (Hc a Hin). simpl in Ha. rewrite Ha, eqb_refl in Hc.
    discriminate.
Qed.

Lemma serve_consistent (pwd_verify : str -> str -> option bool)
      (pwd_hash : str -> str) (llm : nat -> str -> option str)
      (object_id : Report -> str)
      (client : nat -> bool) (docx_accepts : str -> bool)
      (doc_save_ok : nat -> str -> bool)
      (c : Call) (w : World) :
  Consistent w -> Consistent (serve pwd_verify pwd_hash llm object_id client
                                docx_accepts doc_save_ok c w).
Proof.
  intros H. destruct c;
    try (apply (effect_consistent w); [apply serve_effect; discriminate | exact H]).
  simpl. destruct (startup_world pwd_hash w) as [->|[_ ->]]; exact H.
Qed.

(** X12: the application keeps its stores consistent.  From a world
    with at most one report per [(date, name)] pair, distinct user
    names, at most one cached record per date and only reports whose
    yesterday and today have between 1 and 10 words, every sequence of
    calls, by anyone and in any order, failed ones included, leads to
    such a world. *)
Theorem X12_stores_stay_consistent :
  forall (pwd_verify : str -> str -> option bool) (pwd_hash : str -> str)
         (llm : nat -> str -> option str) (object_id : Report -> str)
         (client : nat -> bool) (docx_accepts : str -> bool)
         (doc_save_ok : nat -> str -> bool)
         (calls : list Call) (w : World),
    Consistent w ->
    Consistent (serve_all pwd_verify pwd_hash llm object_id client
                  docx_accepts doc_save_ok calls w).
Proof.
  intros pwd_verify pwd_hash llm object_id client docx_accepts doc_save_ok
         calls.
  induction calls as [|c rest IH]; simpl; intros w H; auto.
  apply IH, serve_consistent, H.
Qed.

Lemma X12_stores_stay_consistent_witness :
  Consistent Scenario.empty_world
  /\ Consistent
       (serve_all Scenario.toy_verify Scenario.toy_hash Scenario.steady_llm
          (fun r => report_name r) Scenario.client_ok Scenario.plain_text
          Scenario.disk_ok
          [Startup;
           PostAddUser (with_token Scenario.admin_token) Scenario.alice;
           PostSaveReport Scenario.day Scenario.alice (lit "wrote tests")
                          (lit "review PR") [];
           PostSaveReport Scenario.day Scenario.alice (lit "again")
                          (lit "again") [];
           GetGenerateActionItems (with_token Scenario.admin_token)
                                  Scenario.day;
           PostDeleteUser (with_token Scenario.admin_token) Scenario.alice]
          Scenario.empty_world).
Proof.
  assert (H : Consistent Scenario.empty_world).
  { repeat split; constructor. }
  split; [exact H|]. apply X12_stores_stay_consistent, H.
Defined.

Lemma effect_admins (w w' : World) :
  effect w w' -> admins_collection w' = admins_collection w.
Proof. intros E; destruct E; reflexivity. Qed.

Lemma effect_action_items (w w' : World) :
  effect w w' ->
  exists added,
    action_items_collection w' = action_items_collection w ++ added.
Proof.
  intros E; destruct E; simpl;
    try (exists []; rewrite app_nil_r; reflexivity).
  eexists; reflexivity.
Qed.

Lemma serve_action_items (pwd_verify : str -> str -> option bool)
      (pwd_hash : str -> str) (llm : nat -> str -> option str)
      (object_id : Report -> str)
      (client : nat -> bool) (docx_accepts : str -> bool)
      (doc_save_ok : nat -> str -> bool)
      (c : Call) (w : World) :
  exists added,
    action_items_collection (serve pwd_verify pwd_hash llm object_id client
                               docx_accepts doc_save_ok c w)
    = action_items_collection w ++ added.
Proof.
  destruct c;
    try (apply effect_action_items, serve_effect; discriminate).
  simpl. exists [].
  destruct (startup_world pwd_hash w) as [->|[_ ->]];
    rewrite app_nil_r; reflexivity.
Qed.

(** X21: cached action items are permanent.  A record the cache
    lookup finds for a date is still what it finds, unchanged, after
    every sequence of calls: no call updates or removes a cached
    record, also not the deletion of the users whose reports it was
    made from. *)
Theorem X21_cache_is_permanent :
  forall (pwd_verify : str -> str -> option bool) (pwd_hash : str -> str)
         (llm : nat -> str -> option str) (object_id : Report -> str)
         (client : nat -> bool) (docx_accepts : str -> bool)
         (doc_save_ok : nat -> str -> bool)
         (calls : list Call) (w : World) (date : str) (a : ActionItems),
    cached w date = Some a ->
    cached (serve_all pwd_verify pwd_hash llm object_id client
              docx_accepts doc_save_ok calls w) date = Some a.
Proof.
  intros pwd_verify pwd_hash llm object_id client docx_accepts doc_save_ok
         calls.
  induction calls as [|c rest IH]; simpl; intros w date a H; auto.
  apply IH.
  destruct (serve_action_items pwd_verify pwd_hash llm object_id client
              docx_accepts doc_save_ok c w)
    as [added E].
  unfold cached. rewrite E. apply find_one_app_some, H.
Qed.

Lemma X21_cache_is_permanent_witness :
  cached Scenario.team_world Scenario.day
  = Some (mkActionItems Scenario.day (lit "* review PR"))
  /\ cached
       (serve_all Scenario.toy_verify Scenario.toy_hash Scenario.steady_llm
          (fun r => report_name r) Scenario.client_ok Scenario.plain_text
          Scenario.disk_ok
          [Startup;
           PostDeleteUser (with_token Scenario.admin_token) Scenario.alice;
           PostDeleteUser (with_token Scenario.admin_token) Scenario.bob;
           GetGenerateActionItems (with_token Scenario.admin_token)
                                  Scenario.day]
          Scenario.team_world)
       Scenario.day
     = Some (mkActionItems Scenario.day (lit "* review PR")).
Proof.
  split; [reflexivity|]. apply X21_cache_is_permanent. reflexivity.
Defined.

Lemma serve_all_admins_seeded (pwd_verify : str -> str -> option bool)
      (pwd_hash : str -> str) (llm : nat -> str -> option str)
      (object_id : Report -> str)
      (client : nat -> bool) (docx_accepts : str -> bool)
      (doc_save_ok : nat -> str -> bool)
      (calls : list Call) : forall w : World,
  (Forall (fun c => c <> Startup) calls
   \/ exists a, admin_of w admin_email_default = Some a) ->
  admins_collection (serve_all pwd_verify pwd_hash llm object_id client
                       docx_accepts doc_save_ok calls w)
  = admins_collection w.
Proof.
  induction calls as [|c rest IH]; simpl; intros w H; auto.
  assert (E : admins_collection (serve pwd_verify pwd_hash llm object_id client
                                   docx_accepts doc_save_ok c w)
              = admins_collection w).
  { destruct c;
      try (apply effect_admins, serve_effect; discriminate).
    destruct H as [H|[a H]].
    - inversion H; congruence.
    - simpl. destruct (startup_world pwd_hash w) as [->|[N _]]; congruence. }
  rewrite IH, E; auto.
  destruct H as [H|H]; [left; inversion H; auto | right].
  unfold admin_of in *. rewrite E. exact H.
Qed.

(** X22: only start-up writes the admin store, and it writes it at
    most once.  After every sequence of calls the admin store is the
    earlier one followed by nothing or by the one default admin; it is
    the earlier one when no call is start-up or an admin was already
    registered under the fixed email. *)
Theorem X22_admin_store_seeded_once :
  forall (pwd_verify : str -> str -> option bool) (pwd_hash : str -> str)
         (llm : nat -> str -> option str) (object_id : Report -> str)
         (client : nat -> bool) (docx_accepts : str -> bool)
         (doc_save_ok : nat -> str -> bool)
         (calls : list Call) (w : World),
    (admins_collection (serve_all pwd_verify pwd_hash llm object_id client
                          docx_accepts doc_save_ok calls w)
     = admins_collection w
     \/ admins_collection (serve_all pwd_verify pwd_hash llm object_id client
                             docx_accepts doc_save_ok calls w)
        = admins_collection w
          ++ [mkAdmin admin_email_default (pwd_hash admin_password_default)])
    /\ (Forall (fun c => c <> Startup) calls ->
        admins_collection
          (serve_all pwd_verify pwd_hash llm object_id client
             docx_accepts doc_save_ok calls w)
        = admins_collection w)
    /\ ((exists a, admin_of w admin_email_default = Some a) ->
        admins_collection
          (serve_all pwd_verify pwd_hash llm object_id client
             docx_accepts doc_save_ok calls w)
        = admins_collection w).
Proof.
  intros pwd_verify pwd_hash llm object_id client docx_accepts doc_save_ok
         calls w.
  split; [|split; intros H; apply serve_all_admins_seeded; auto].
  revert w. induction calls as [|c rest IH]; simpl; intros w; auto.
  destruct c;
    try (match goal with
         | |- context [serve_all _ _ _ _ _ _ _ _ (serve _ _ _ _ _ _ _ ?c w)] =>
             destruct (IH (serve pwd_verify pwd_hash llm object_id client
                                 docx_accepts doc_save_ok c w))
               as [E|E];
             rewrite E,
               (effect_admins w
                  (serve pwd_verify pwd_hash llm object_id client
                         docx_accepts doc_save_ok c w)
                  (serve_effect pwd_verify pwd_hash llm object_id client
                     docx_accepts doc_save_ok c w ltac:(discriminate)));
             auto
         end).
  simpl. destruct (startup_world pwd_hash w) as [->|[N ->]]; [apply IH|].
  right. rewrite serve_all_admins_seeded; [reflexivity|].
  right. eexists. unfold admin_of; simpl.
  apply find_one_snoc_none; [exact N | apply eqb_refl].
Qed.

Lemma Depends_reports {A : Type} (request : Request) (handler : str -> M A)
      (w : World) (P : list Report -> Prop) :
  P (reports_collection w) ->
  (forall token, P (reports_collection (snd (handler token w)))) ->
  P (reports_collection (snd (Depends request handler w))).
Proof.
  intros H0 H. destruct (Depends_cases request handler w) as [[token ->]| ->];
    auto.
Qed.

(** What a call does to the report store. *)
Lemma serve_reports (pwd_verify : str -> str -> option bool)
      (pwd_hash : str -> str) (llm : nat -> str -> option str)
      (object_id : Report -> str)
      (client : nat -> bool) (docx_accepts : str -> bool)
      (doc_save_ok : nat -> str -> bool)
      (c : Call) (w : World) :
  let reports' :=
    reports_collection (serve pwd_verify pwd_hash llm object_id client
                          docx_accepts doc_save_ok c w) in
  reports' = reports_collection w
  \/ match c with
     | PostSaveReport date name yesterday today blockers =>
         reports' = reports_collection w
                    ++ [mkReport date name yesterday today blockers]
     | PostDeleteUser _ name =>
         reports' = filter (fun r => negb (Py.eqb (report_name r) name))
                           (reports_collection w)
     | _ => False
     end.
Proof.
  destruct c; simpl.
  - left. destruct (startup_world pwd_hash w) as [->|[_ ->]]; reflexivity.
  - left. rewrite login_run. destruct (admin_of w email); [|reflexivity].
    destruct (verify_password _ _ _); reflexivity.
  - left. unfold check_report. run.
    destruct (Coll.find_one _ _); reflexivity.
  - apply save_report_frame.
  - left. apply Depends_reports; [reflexivity|]. intros token.
    rewrite add_user_run. destruct (is_some _); reflexivity.
  - apply (Depends_reports request (delete_user name) w
             (fun l => l = reports_collection w \/ l = _)); [auto|].
    intros token. unfold delete_user. run.
    destruct (is_some _); simpl; auto.
  - left. apply Depends_reports; reflexivity.
  - left. apply Depends_reports; reflexivity.
  - left. apply Depends_reports; [reflexivity|]. intros token.
    destruct (generate_cases llm client w date token)
      as [[e E]|[[a [_ E]]|[_ [_ [[e E]|[text E]]]]]]; rewrite E; reflexivity.
  - left. apply Depends_reports; [reflexivity|]. intros token.
    unfold get_action_items. run. destruct (Coll.find_one _ _); reflexivity.
  - left. apply Depends_reports; [reflexivity|]. intros token.
    rewrite download_report_spec.
    destruct (reports_of w date) as [|r l]; [reflexivity|].
    destruct (forallb docx_accepts _); [|reflexivity].
    destruct (doc_save_ok _ _); reflexivity.
Qed.

(** X19: reports are neither invented nor rewritten, and they leave
    the store only through [delete_user].  After every sequence of
    calls, each stored report was stored before or carries exactly the
    fields of a [save_report] call of the sequence; and each report
    stored before is still stored, unless the sequence has a
    [delete_user] call for its name. *)
Theorem X19_report_provenance :
  forall (pwd_verify : str -> str -> option bool) (pwd_hash : str -> str)
         (llm : nat -> str -> option str) (object_id : Report -> str)
         (client : nat -> bool) (docx_accepts : str -> bool)
         (doc_save_ok : nat -> str -> bool)
         (calls : list Call) (w : World) (r : Report),
    (In r (reports_collection
             (serve_all pwd_verify pwd_hash llm object_id client
                docx_accepts doc_save_ok calls w)) ->
     In r (reports_collection w)
     \/ In (PostSaveReport (report_date r) (report_name r)
                           (report_yesterday r) (report_today r)
                           (report_blockers r)) calls)
    /\ (In r (reports_collection w) ->
        In r (reports_collection
                (serve_all pwd_verify pwd_hash llm object_id client
                   docx_accepts doc_save_ok calls w))
        \/ exists request, In (PostDeleteUser request (report_name r)) calls).
Proof.
  intros pwd_verify pwd_hash llm object_id client docx_accepts doc_save_ok
         calls.
  induction calls as [|c rest IH]; intros w r; simpl; [tauto|].
  destruct (IH (serve pwd_verify pwd_hash llm object_id client
                  docx_accepts doc_save_ok c w) r) as [A B].
  pose proof (serve_reports pwd_verify pwd_hash llm object_id client
                docx_accepts doc_save_ok c w) as S.
  simpl in S. split.
  - intros H. destruct (A H) as [H'|H']; [|auto].
    destruct S as [S|S]; [rewrite S in H'; auto|].
    destruct c; try contradiction; rewrite S in H'.
    + apply in_app_iff in H' as [H'|[<-|[]]]; auto.
    + apply filter_In in H' as [H' _]. auto.
  - intros H.
    assert (K : In r (reports_collection
                        (serve pwd_verify pwd_hash llm object_id client
                           docx_accepts doc_save_ok c w))
                \/ exists request, c = PostDeleteUser request (report_name r)).
    { destruct S as [S|S]; [rewrite S; auto|].
      destruct c; try contradiction; rewrite S.
      - left. apply in_app_iff. auto.
      - destruct (Py.eqb (report_name r) name) eqn:E.
        + right. apply eqb_eq in E. subst name. eexists; reflexivity.
        + left. apply filter_In. rewrite E. auto. }
    destruct K as [K|[request ->]].
    + destruct (B K) as [K'|[request K']]; [auto|].
      right. exists request. auto.
    + right. exists request. auto.
Qed.
